(** * Terrain3DStorage: region index, region map and generated-resource cache

    A shallow embedding of [src/src/terrain_storage.cpp] and its header
    [terrain_storage.h] (src/unnamed/part_000).

    Modelling conventions.
    - The engine's [RenderingServer] is an explicit [Server] value threaded
      through every call: it allocates RIDs from a counter, keeps the
      textures it created, and the parameters set on the storage's material.
      A RID is a [nat]; [0] is the invalid [RID()].
    - Godot floats (world positions, colour channels) are modelled by exact
      rationals [Q]: the float32 rounding of [_get_offset_from] at the
      edge of a region and the 8-bit quantisation of the image formats are
      not modelled.  An 8-bit channel clamps its value to [0, 1]; a
      format keeps only its own channels.
    - [ERR_FAIL_COND] / [ERR_FAIL_COND_MSG] / [ERR_FAIL_INDEX] print to the
      engine log and return: the log is the [errors] field of the state.
      The model follows a debug build, where [Image::set_pixel] checks its
      coordinates (a release build skips that check).
    - Unchecked indexing into an engine array ([Array::operator[]]) and a
      call through a null reference abort the process: those paths return
      [None] (a crash). *)

From Stdlib Require Import List ZArith QArith Qround Lqa String Ascii Bool Lia.
Import ListNotations.
Open Scope Z_scope.

(** ** Engine values *)

Record Color := mkColor { cr : Q; cg : Q; cb : Q; ca : Q }.

(** [Color()] in Godot is opaque black. *)
Definition color_default : Color := mkColor 0 0 0 1.

Inductive Format := FORMAT_RH | FORMAT_RG8 | FORMAT_RGBA8.

(** An 8-bit channel: [CLAMP(v * 255, 0, 255)] read back as a value in
    [0, 1]. *)
Definition clamp01 (q : Q) : Q :=
  if Qle_bool q 0 then 0 else if Qle_bool 1 q then 1 else q.

(** What a pixel of a given format keeps of a colour, as read back by
    [get_pixel]: missing colour channels read as 0, a missing alpha as 1;
    [FORMAT_RH] is a half float, the other two formats have 8-bit
    channels. *)
Definition stored (f : Format) (c : Color) : Color :=
  match f with
  | FORMAT_RH => mkColor (cr c) 0 0 1
  | FORMAT_RG8 => mkColor (clamp01 (cr c)) (clamp01 (cg c)) 0 1
  | FORMAT_RGBA8 => mkColor (clamp01 (cr c)) (clamp01 (cg c)) (clamp01 (cb c)) (clamp01 (ca c))
  end.

Record Image := mkImage {
  img_width : Z;
  img_height : Z;
  img_format : Format;
  img_data : Z -> Z -> Color
}.

(** [Image::create(w, h, false, fmt)]: zero-initialised pixel bytes. *)
Definition image_create (w h : Z) (f : Format) : Image :=
  mkImage w h f (fun _ _ => stored f (mkColor 0 0 0 0)).

Definition image_fill (c : Color) (img : Image) : Image :=
  mkImage (img_width img) (img_height img) (img_format img)
    (fun _ _ => stored (img_format img) c).

Definition in_bounds (img : Image) (x y : Z) : bool :=
  (0 <=? x) && (x <? img_width img) && (0 <=? y) && (y <? img_height img).

(** Decimal digits of a non-negative number ([itos]). *)
Fixpoint digits (fuel : nat) (n : Z) (acc : string) : string :=
  match fuel with
  | O => acc
  | S f =>
      let acc' := String (ascii_of_nat (48 + Z.to_nat (n mod 10))) acc in
      if n <? 10 then acc' else digits f (n / 10) acc'
  end.

Definition itos (n : Z) : string :=
  if n <? 0 then String "-"%char (digits 64 (- n) EmptyString) else digits 64 n EmptyString.

(** The message of [ERR_FAIL_INDEX(index, size)]. *)
Definition index_error (index_name : string) (index : Z) (size_name : string) (size : Z)
  : string :=
  ("Index " ++ index_name ++ " = " ++ itos index ++ " is out of bounds ("
    ++ size_name ++ " = " ++ itos size ++ ").")%string.

(** [Image::set_pixelv] calls [set_pixel(x, y, c)], which (in a debug
    build) checks [ERR_FAIL_INDEX(p_x, width)] and then
    [ERR_FAIL_INDEX(p_y, height)]: out-of-range coordinates log one error
    and leave the image unchanged.  The result pairs the image with what
    the call logs. *)
Definition image_set_pixelv (p : Z * Z) (c : Color) (img : Image) : Image * list string :=
  let (x, y) := p in
  if negb ((0 <=? x) && (x <? img_width img)) then
    (img, [index_error "p_x" x "width" (img_width img)])
  else if negb ((0 <=? y) && (y <? img_height img)) then
    (img, [index_error "p_y" y "height" (img_height img)])
  else
    (mkImage (img_width img) (img_height img) (img_format img)
       (fun x' y' => if (x' =? x) && (y' =? y) then stored (img_format img) c
                     else img_data img x' y'), []).

Definition image_get_pixel (img : Image) (x y : Z) : Color :=
  if in_bounds img x y then img_data img x y else color_default.

(** ** Layer materials ([TerrainLayerMaterial3D]) *)

Record LayerMat := mkLayerMat {
  lm_id : nat;                       (* object identity *)
  lm_albedo_texture : option nat;    (* texture RID, null reference = None *)
  lm_normal_texture : option nat
}.

(** ** Rendering server *)

Inductive TexData :=
  | LayeredImages (l : list Image)
  | Single2D (img : Image).

Inductive ParamVal :=
  | PRid (r : nat)
  | PInt (z : Z)
  | PFloat (q : Q).

Record Server := mkServer {
  rs_next : nat;                          (* next RID to hand out, > 0 *)
  rs_textures : list (nat * TexData);     (* live textures, newest first *)
  rs_params : list (string * ParamVal)    (* parameters of the material *)
}.

Definition rs_texture_create (d : TexData) (srv : Server) : nat * Server :=
  (rs_next srv,
   mkServer (S (rs_next srv)) ((rs_next srv, d) :: rs_textures srv) (rs_params srv)).

(** [material_create] / [shader_create]: a fresh RID. *)
Definition rs_alloc (srv : Server) : nat * Server :=
  (rs_next srv, mkServer (S (rs_next srv)) (rs_textures srv) (rs_params srv)).

Definition rs_free_rid (r : nat) (srv : Server) : Server :=
  mkServer (rs_next srv)
    (filter (fun e => negb (Nat.eqb (fst e) r)) (rs_textures srv))
    (rs_params srv).

Fixpoint param_set (k : string) (v : ParamVal) (l : list (string * ParamVal))
  : list (string * ParamVal) :=
  match l with
  | [] => [(k, v)]
  | (k', v') :: t => if String.eqb k k' then (k, v) :: t else (k', v') :: param_set k v t
  end.

Fixpoint param_get (k : string) (l : list (string * ParamVal)) : option ParamVal :=
  match l with
  | [] => None
  | (k', v) :: t => if String.eqb k k' then Some v else param_get k t
  end.

Definition rs_material_set_param (k : string) (v : ParamVal) (srv : Server) : Server :=
  mkServer (rs_next srv) (rs_textures srv) (param_set k v (rs_params srv)).

Fixpoint rid_lookup (r : nat) (l : list (nat * TexData)) : option TexData :=
  match l with
  | [] => None
  | (r', d) :: t => if Nat.eqb r r' then Some d else rid_lookup r t
  end.

(** ** [Terrain3DStorage::Generated] *)

Record Generated := mkGenerated {
  g_rid : nat;
  g_image : option Image;
  g_dirty : bool
}.

(** Default member initialisers: [rid = RID()], null image, [dirty = false]. *)
Definition generated_default : Generated := mkGenerated 0 None false.

Definition is_dirty (g : Generated) : bool := g_dirty g.

(** [Generated::clear] *)
Definition gen_clear (g : Generated) (srv : Server) : Generated * Server :=
  let srv' := if Nat.ltb 0 (g_rid g) then rs_free_rid (g_rid g) srv else srv in
  (mkGenerated 0 None true, srv').

(** [Generated::create(const TypedArray<Image> &)]; [mk] is the layered
    texture the server builds from the array. *)
Definition gen_create_layers {A} (mk : list A -> TexData) (ls : list A)
    (g : Generated) (srv : Server) : Generated * Server :=
  match ls with
  | [] => gen_clear g srv
  | _ :: _ =>
      let (r, srv') := rs_texture_create (mk ls) srv in
      (mkGenerated r (g_image g) false, srv')
  end.

(** [Generated::create(const Ref<Image> &)] *)
Definition gen_create_image (img : Image) (g : Generated) (srv : Server)
  : Generated * Server :=
  let (r, srv') := rs_texture_create (Single2D img) srv in
  (mkGenerated r (Some img) false, srv').

(** ** The storage object *)

Inductive MapType := TYPE_HEIGHT | TYPE_CONTROL | TYPE_COLOR | TYPE_MAX.

(** [const int region_map_size = 16;] *)
Definition region_map_size : Z := 16.

(** A signal connection [(object id, signal, method)]. *)
Definition Connection : Type := (nat * string * string)%type.

Record Storage := mkStorage {
  region_size : Z;
  max_height : Z;
  material : nat;
  shader : nat;
  layers : list (option LayerMat);
  region_offsets : list (Z * Z);
  height_maps : list Image;
  control_maps : list Image;
  generated_region_map : Generated;
  generated_height_maps : Generated;
  generated_control_maps : Generated;
  generated_albedo_textures : Generated;
  generated_normal_textures : Generated;
  server : Server;
  connections : list Connection;
  errors : list string
}.

Section Setters.
Variable s : Storage.
Definition set_server srv :=
  mkStorage (region_size s) (max_height s) (material s) (shader s) (layers s)
    (region_offsets s) (height_maps s) (control_maps s) (generated_region_map s)
    (generated_height_maps s) (generated_control_maps s)
    (generated_albedo_textures s) (generated_normal_textures s) srv
    (connections s) (errors s).
Definition set_region_lists offs hm cm :=
  mkStorage (region_size s) (max_height s) (material s) (shader s) (layers s)
    offs hm cm (generated_region_map s)
    (generated_height_maps s) (generated_control_maps s)
    (generated_albedo_textures s) (generated_normal_textures s) (server s)
    (connections s) (errors s).
Definition set_map_caches rm hm cm srv :=
  mkStorage (region_size s) (max_height s) (material s) (shader s) (layers s)
    (region_offsets s) (height_maps s) (control_maps s) rm hm cm
    (generated_albedo_textures s) (generated_normal_textures s) srv
    (connections s) (errors s).
Definition set_texture_caches al nm srv :=
  mkStorage (region_size s) (max_height s) (material s) (shader s) (layers s)
    (region_offsets s) (height_maps s) (control_maps s) (generated_region_map s)
    (generated_height_maps s) (generated_control_maps s) al nm srv
    (connections s) (errors s).
Definition set_layers_field ls conns :=
  mkStorage (region_size s) (max_height s) (material s) (shader s) ls
    (region_offsets s) (height_maps s) (control_maps s) (generated_region_map s)
    (generated_height_maps s) (generated_control_maps s)
    (generated_albedo_textures s) (generated_normal_textures s) (server s)
    conns (errors s).
Definition set_region_size_field rs :=
  mkStorage rs (max_height s) (material s) (shader s) (layers s)
    (region_offsets s) (height_maps s) (control_maps s) (generated_region_map s)
    (generated_height_maps s) (generated_control_maps s)
    (generated_albedo_textures s) (generated_normal_textures s) (server s)
    (connections s) (errors s).
Definition set_material_shader m sh :=
  mkStorage (region_size s) (max_height s) m sh (layers s)
    (region_offsets s) (height_maps s) (control_maps s) (generated_region_map s)
    (generated_height_maps s) (generated_control_maps s)
    (generated_albedo_textures s) (generated_normal_textures s) (server s)
    (connections s) (errors s).
(** [ERR_FAIL_COND]: the condition is printed to the log. *)
Definition log_errors msgs :=
  mkStorage (region_size s) (max_height s) (material s) (shader s) (layers s)
    (region_offsets s) (height_maps s) (control_maps s) (generated_region_map s)
    (generated_height_maps s) (generated_control_maps s)
    (generated_albedo_textures s) (generated_normal_textures s) (server s)
    (connections s) (errors s ++ msgs).
Definition log_error msg :=
  mkStorage (region_size s) (max_height s) (material s) (shader s) (layers s)
    (region_offsets s) (height_maps s) (control_maps s) (generated_region_map s)
    (generated_height_maps s) (generated_control_maps s)
    (generated_albedo_textures s) (generated_normal_textures s) (server s)
    (connections s) (errors s ++ [msg]).
End Setters.

(** [Array::remove_at] at an index in range.  Both callers in this file
    pass an index they have just found in the list, so the engine's
    [ERR_FAIL_INDEX] branch (an out-of-range index is refused and logged)
    is never taken; here it leaves the list unchanged. *)
Definition remove_at {A} (i : Z) (l : list A) : list A :=
  if (0 <=? i) && (i <? Z.of_nat (List.length l)) then
    firstn (Z.to_nat i) l ++ skipn (S (Z.to_nat i)) l
  else l.

(** Checked-by-crash read [a[i]]. *)
Definition array_get {A} (l : list A) (i : Z) : option A :=
  if 0 <=? i then nth_error l (Z.to_nat i) else None.

(** The double quote, and the message of [ERR_FAIL_COND(cond)]. *)
Definition dq : string := String (ascii_of_nat 34) EmptyString.

Definition cond_msg (cond : string) : string :=
  ("Condition " ++ dq ++ cond ++ dq ++ " is true.")%string.

(** ** [set_region_size] *)
Definition set_region_size (p_size : Z) (s : Storage) : Storage :=
  if p_size <? 64 then log_error s (cond_msg "p_size < SIZE_64")
  else if p_size >? 2048 then log_error s (cond_msg "p_size > SIZE_2048")
  else
    let s1 := set_region_size_field s p_size in
    let srv := rs_material_set_param "region_size" (PInt p_size) (server s1) in
    let srv := rs_material_set_param "region_pixel_size" (PFloat (1 / inject_Z p_size)) srv in
    set_server s1 srv.

(** ** Region index *)

Record Vector3 := mkVector3 { vx : Q; vy : Q; vz : Q }.

(** [_get_offset_from]:
    [Vector2i((Vector2(x, z) / float(region_size) + Vector2(0.5, 0.5)).floor())] *)
Definition _get_offset_from (p : Vector3) (s : Storage) : Z * Z :=
  (Qfloor (vx p / inject_Z (region_size s) + (1 # 2)),
   Qfloor (vz p / inject_Z (region_size s) + (1 # 2))).

Definition offset_eqb (a b : Z * Z) : bool := (fst a =? fst b) && (snd a =? snd b).

(** The search loop of [get_region_index], starting at slot [i]. *)
Fixpoint find_offset (uv : Z * Z) (l : list (Z * Z)) (i : Z) : Z :=
  match l with
  | [] => -1
  | ofs :: t => if offset_eqb ofs uv then i else find_offset uv t (i + 1)
  end.

Definition get_region_index (p : Vector3) (s : Storage) : Z :=
  find_offset (_get_offset_from p s) (region_offsets s) 0.

Definition has_region (p : Vector3) (s : Storage) : bool :=
  negb (get_region_index p s =? -1).

Definition get_region_count (s : Storage) : Z := Z.of_nat (List.length (region_offsets s)).

Definition set_region_offsets (l : list (Z * Z)) (s : Storage) : Storage :=
  set_region_lists s l (height_maps s) (control_maps s).


(** ** Region map encoder: the loop of [_update_regions] *)

(** The loop from slot [i] on: the image it paints and what its
    [set_pixelv] calls log. *)
Fixpoint paint_region_map (i : Z) (offs : list (Z * Z)) (img : Image) : Image * list string :=
  match offs with
  | [] => (img, [])
  | ofs :: t =>
      let col := mkColor (inject_Z (i + 1) / 255)%Q 1 0 1 in
      let '(img1, e1) :=
        image_set_pixelv (fst ofs + region_map_size / 2, snd ofs + region_map_size / 2)
          col img in
      let '(img2, e2) := paint_region_map (i + 1) t img1 in
      (img2, e1 ++ e2)
  end.

Definition region_map_image (offs : list (Z * Z)) : Image * list string :=
  paint_region_map 0 offs
    (image_fill (mkColor 0 0 0 1)
       (image_create region_map_size region_map_size FORMAT_RG8)).

(** The image built by the loop, and the errors the loop logs. *)
Definition build_region_map (offs : list (Z * Z)) : Image := fst (region_map_image offs).
Definition region_map_errors (offs : list (Z * Z)) : list string := snd (region_map_image offs).


(** ** [_update_regions] *)
Definition _update_regions (s : Storage) : Storage :=
  let srv0 := server s in
  let '(gh, srv1) :=
    if is_dirty (generated_height_maps s)
    then gen_create_layers LayeredImages (height_maps s) (generated_height_maps s) srv0
    else (generated_height_maps s, srv0) in
  let '(gc, srv2) :=
    if is_dirty (generated_control_maps s)
    then gen_create_layers LayeredImages (control_maps s) (generated_control_maps s) srv1
    else (generated_control_maps s, srv1) in
  let '(gr, srv3) :=
    if is_dirty (generated_region_map s)
    then gen_create_image (build_region_map (region_offsets s)) (generated_region_map s) srv2
      (* the loop's [set_pixelv] errors are logged below, as [errs] *)
    else (generated_region_map s, srv2) in
  let srv4 := rs_material_set_param "height_maps" (PRid (g_rid gh)) srv3 in
  let srv5 := rs_material_set_param "control_maps" (PRid (g_rid gc)) srv4 in
  let srv6 := rs_material_set_param "region_map" (PRid (g_rid gr)) srv5 in
  let srv7 := rs_material_set_param "region_map_size" (PInt region_map_size) srv6 in
  let errs := if is_dirty (generated_region_map s) then region_map_errors (region_offsets s) else [] in
  log_errors (set_map_caches s gr gh gc srv7) errs.

(** The three [clear()] calls of [add_region] / [remove_region]:
    height maps, control maps, region map, in that order. *)
Definition clear_region_caches (s : Storage) : Storage :=
  let '(gh, srv1) := gen_clear (generated_height_maps s) (server s) in
  let '(gc, srv2) := gen_clear (generated_control_maps s) srv1 in
  let '(gr, srv3) := gen_clear (generated_region_map s) srv2 in
  set_map_caches s gr gh gc srv3.

(** [add_region]; [notify_property_list_changed] and [emit_changed] touch
    no modelled state. *)
Definition add_region (p : Vector3) (s : Storage) : Storage :=
  if has_region p s then log_error s (cond_msg "has_region(p_global_position)")
  else
    let rs := region_size s in
    let hmap_img := image_fill (mkColor 0 0 0 1) (image_create rs rs FORMAT_RH) in
    let cmap_img := image_fill (mkColor 0 0 0 1) (image_create rs rs FORMAT_RGBA8) in
    let uv_offset := _get_offset_from p s in
    let s1 := set_region_lists s (region_offsets s ++ [uv_offset])
                (height_maps s ++ [hmap_img]) (control_maps s ++ [cmap_img]) in
    _update_regions (clear_region_caches s1).

(** [remove_region] *)
Definition remove_region (p : Vector3) (s : Storage) : Storage :=
  if get_region_count s =? 1 then s
  else
    let index := get_region_index p s in
    if index =? -1 then log_error s (cond_msg "index == -1" ++ " Map does not exist.")%string
    else
      let s1 := set_region_lists s (remove_at index (region_offsets s))
                  (remove_at index (height_maps s)) (remove_at index (control_maps s)) in
      _update_regions (clear_region_caches s1).

(** ** Maps *)

(** [get_map] (a [const] method): [None] is the crash of an out-of-range
    [height_maps[i]] / [control_maps[i]]; [Some None] is a null image. *)
Definition get_map (p_region_index : Z) (p_map_type : MapType) (s : Storage)
  : option (option Image) :=
  match p_map_type with
  | TYPE_HEIGHT => option_map Some (array_get (height_maps s) p_region_index)
  | TYPE_CONTROL => option_map Some (array_get (control_maps s) p_region_index)
  | TYPE_COLOR => Some None
  | TYPE_MAX => Some None
  end.

(** [force_update_maps] *)
Definition force_update_maps (p_map_type : MapType) (s : Storage) : Storage :=
  let s1 :=
    match p_map_type with
    | TYPE_HEIGHT =>
        let '(gh, srv) := gen_clear (generated_height_maps s) (server s) in
        set_map_caches s (generated_region_map s) gh (generated_control_maps s) srv
    | TYPE_CONTROL =>
        let '(gc, srv) := gen_clear (generated_control_maps s) (server s) in
        set_map_caches s (generated_region_map s) (generated_height_maps s) gc srv
    | TYPE_COLOR => s
    | TYPE_MAX =>
        let '(gh, srv1) := gen_clear (generated_height_maps s) (server s) in
        let '(gc, srv2) := gen_clear (generated_control_maps s) srv1 in
        set_map_caches s (generated_region_map s) gh gc srv2
    end in
  _update_regions s1.

Definition set_height_maps (p_maps : list Image) (s : Storage) : Storage :=
  force_update_maps TYPE_HEIGHT (set_region_lists s (region_offsets s) p_maps (control_maps s)).

Definition set_control_maps (p_maps : list Image) (s : Storage) : Storage :=
  force_update_maps TYPE_CONTROL (set_region_lists s (region_offsets s) (height_maps s) p_maps).

(** ** Layers *)

Definition conn_eqb (a b : Connection) : bool :=
  match a, b with
  | (o, sg, m), (o', sg', m') => Nat.eqb o o' && String.eqb sg sg' && String.eqb m m'
  end.

Definition is_connected (c : Connection) (conns : list Connection) : bool :=
  existsb (conn_eqb c) conns.

(** The message of [Object::disconnect] for a connection that does not
    exist (the engine's text also names the object, the signal and the
    callable). *)
Definition disconnect_error : string := "Attempt to disconnect a nonexistent connection.".

(** [Object::disconnect]: a connection that does not exist is refused with
    an error message. *)
Definition disconnect (c : Connection) (s : Storage) : Storage :=
  if is_connected c (connections s)
  then set_layers_field s (layers s) (filter (fun c' => negb (conn_eqb c c')) (connections s))
  else log_error s disconnect_error.

(** The connection loop of [_update_layers]; a null layer crashes. *)
Fixpoint connect_layers (ls : list (option LayerMat)) (conns : list Connection)
  : option (list Connection) :=
  match ls with
  | [] => Some conns
  | None :: _ => None
  | Some m :: t =>
      let c1 := (lm_id m, "texture_changed"%string, "_update_textures"%string) in
      let conns := if is_connected c1 conns then conns else conns ++ [c1] in
      let c2 := (lm_id m, "value_changed"%string, "_update_values"%string) in
      let conns := if is_connected c2 conns then conns else conns ++ [c2] in
      connect_layers t conns
  end.

(** One texture reference per layer; a null layer crashes. *)
Fixpoint layer_textures (f : LayerMat -> option nat) (ls : list (option LayerMat))
  : option (list (option nat)) :=
  match ls with
  | [] => Some []
  | None :: _ => None
  | Some m :: t => option_map (cons (f m)) (layer_textures f t)
  end.

(** [_update_arrays]: builds two local arrays from the layers and emits
    [changed]; its only modelled effect is the crash on a null layer. *)
Definition _update_arrays (s : Storage) : option Storage :=
  match layer_textures lm_albedo_texture (layers s) with
  | Some _ => Some s
  | None => None
  end.

(** The message of [Array::assign] when an element is an object that is
    not of the array's class (the engine's text also names the class of the
    object). *)
Definition typed_array_error : string :=
  "Attempted to assign an object into a TypedArray, which does not inherit from 'Image'.".

(** [Generated::create(texture_array)] on the [Array] of texture
    references built by [_update_textures]: the argument is converted to
    [TypedArray<Image>].  A null converts; a texture is a [Texture2D],
    not an [Image], so the conversion logs an error and yields an empty
    array, and [create] of an empty array is [clear()].  A non-empty
    array of null images reaches [texture_2d_layered_create], whose
    texture storage dereferences each image: a crash. *)
Definition is_texture (t : option nat) : bool :=
  match t with Some _ => true | None => false end.

Definition create_texture_array (arr : list (option nat)) (g : Generated) (srv : Server)
  : option (Generated * Server * list string) :=
  if existsb is_texture arr then
    let '(g1, srv1) := gen_clear g srv in Some (g1, srv1, [typed_array_error])
  else
    match arr with
    | [] => let '(g1, srv1) := gen_clear g srv in Some (g1, srv1, [])
    | _ :: _ => None
    end.

(** [_update_textures] *)
Definition _update_textures (s : Storage) : option Storage :=
  let step (dirty : bool) (f : LayerMat -> option nat) (g : Generated) (srv : Server)
      : option (Generated * Server * list string) :=
    if dirty then
      match layer_textures f (layers s) with
      | Some arr => create_texture_array arr g srv
      | None => None
      end
    else Some (g, srv, []) in
  match step (is_dirty (generated_albedo_textures s)) lm_albedo_texture
             (generated_albedo_textures s) (server s) with
  | None => None
  | Some (ga, srv1, e1) =>
      match step (is_dirty (generated_normal_textures s)) lm_normal_texture
                 (generated_normal_textures s) srv1 with
      | None => None
      | Some (gn, srv2, e2) => Some (log_errors (set_texture_caches s ga gn srv2) (e1 ++ e2))
      end
  end.

(** [_update_layers] *)
Definition _update_layers (s : Storage) : option Storage :=
  match connect_layers (layers s) (connections s) with
  | None => None
  | Some conns =>
      match _update_arrays (set_layers_field s (layers s) conns) with
      | None => None
      | Some s1 => _update_textures s1
      end
  end.

(** [a[i] = v] on an in-range index. *)
Definition list_set {A} (i : nat) (v : A) (l : list A) : list A :=
  firstn i l ++ v :: skipn (S i) l.

(** [set_layer]; [None] as [p_material] is a null reference. *)
Definition set_layer (p_material : option LayerMat) (p_index : Z) (s : Storage)
  : option Storage :=
  let s1 :=
    if p_index <? Z.of_nat (List.length (layers s)) then
      match p_material with
      | None =>
          match array_get (layers s) p_index with
          | Some (Some rm) =>
              let s' := disconnect (lm_id rm, "texture_changed"%string, "_update_textures"%string) s in
              let s'' := disconnect (lm_id rm, "value_changed"%string, "_update_arrays"%string) s' in
              Some (set_layers_field s'' (remove_at p_index (layers s'')) (connections s''))
          | _ => None
          end
      | Some _ =>
          if 0 <=? p_index
          then Some (set_layers_field s (list_set (Z.to_nat p_index) p_material (layers s))
                       (connections s))
          else None
      end
    else Some (set_layers_field s (layers s ++ [p_material]) (connections s)) in
  match s1 with
  | None => None
  | Some s1 =>
      let '(ga, srv1) := gen_clear (generated_albedo_textures s1) (server s1) in
      let '(gn, srv2) := gen_clear (generated_normal_textures s1) srv1 in
      _update_layers (set_texture_caches s1 ga gn srv2)
  end.

(** [set_layers] *)
Definition set_layers (p_layers : list (option LayerMat)) (s : Storage) : option Storage :=
  let s1 := set_layers_field s p_layers (connections s) in
  let '(ga, srv1) := gen_clear (generated_albedo_textures s1) (server s1) in
  let '(gn, srv2) := gen_clear (generated_normal_textures s1) srv1 in
  _update_layers (set_texture_caches s1 ga gn srv2).

Definition get_layer_count (s : Storage) : Z := Z.of_nat (List.length (layers s)).

(** ** Construction *)

(** [_update_material]: creates the material and shader if needed and
    re-applies the region size.  The generated shader text and the
    noise parameters are outside this model. *)
Definition _update_material (s : Storage) : Storage :=
  let '(m, srv1) := if Nat.ltb 0 (material s) then (material s, server s) else rs_alloc (server s) in
  let '(sh, srv2) := if Nat.ltb 0 (shader s) then (shader s, srv1) else rs_alloc srv1 in
  let s1 := set_server (set_material_shader s m sh) srv2 in
  set_region_size (region_size s1) s1.

(** The member initialisers of the header. *)
Definition storage_default : Storage :=
  mkStorage 1024 512 0 0 [] [] [] []
    generated_default generated_default generated_default
    generated_default generated_default
    (mkServer 1 [] []) [] [].

(** [Terrain3DStorage::Terrain3DStorage()] *)
Definition new_storage : Storage := _update_material storage_default.

(** ** Getters, teardown *)

Definition get_layers (s : Storage) : list (option LayerMat) := layers s.

(** [get_layer] returns [layers[p_index]] (crash out of range). *)
Definition get_layer (p_index : Z) (s : Storage) : option (option LayerMat) :=
  array_get (layers s) p_index.

Definition get_region_size (s : Storage) : Z := region_size s.

(** [set_max_height] *)
Definition set_max_height (p_height : Z) (s : Storage) : Storage :=
  mkStorage (region_size s) p_height (material s) (shader s) (layers s)
    (region_offsets s) (height_maps s) (control_maps s) (generated_region_map s)
    (generated_height_maps s) (generated_control_maps s)
    (generated_albedo_textures s) (generated_normal_textures s)
    (rs_material_set_param "terrain_height" (PInt p_height) (server s))
    (connections s) (errors s).

Definition get_max_height (s : Storage) : Z := max_height s.

(** [_clear]: frees the material and the shader, then clears the five
    generated resources. *)
Definition _clear (s : Storage) : Storage :=
  let srv0 := rs_free_rid (shader s) (rs_free_rid (material s) (server s)) in
  let '(gh, srv1) := gen_clear (generated_height_maps s) srv0 in
  let '(gc, srv2) := gen_clear (generated_control_maps s) srv1 in
  let '(ga, srv3) := gen_clear (generated_albedo_textures s) srv2 in
  let '(gn, srv4) := gen_clear (generated_normal_textures s) srv3 in
  let '(gr, srv5) := gen_clear (generated_region_map s) srv4 in
  set_texture_caches (set_map_caches s gr gh gc srv5) ga gn srv5.

(** ** Sample states *)

Definition origin : Vector3 := mkVector3 0 0 0.

(** A world position whose region offset is [(k, 0)] at region size 1024. *)
Definition pos_of_offset (k : Z) : Vector3 := mkVector3 (inject_Z (k * 1024)) 0 0.

Definition one_region : Storage := add_region origin new_storage.

Definition three_regions : Storage :=
  add_region (pos_of_offset 2) (add_region (pos_of_offset 1) one_region).



Definition sample_layer (k : nat) : LayerMat :=
  mkLayerMat k (Some (1000 + k)%nat) (Some (2000 + k)%nat).

(** Two layers set on the one-region state. *)
Definition two_layers : Storage :=
  match set_layers [Some (sample_layer 0); Some (sample_layer 1)] one_region with
  | Some t => t
  | None => one_region
  end.


(** The three region lists have one entry per region. *)
Definition lockstep (s : Storage) : Prop :=
  List.length (height_maps s) = List.length (region_offsets s) /\
  List.length (control_maps s) = List.length (region_offsets s).

(** The two connections [_update_layers] makes for a layer. *)
Definition layer_conns (m : LayerMat) (c : Connection) : Prop :=
  c = (lm_id m, "texture_changed"%string, "_update_textures"%string) \/
  c = (lm_id m, "value_changed"%string, "_update_values"%string).

(** The texture RIDs [_clear] frees: the valid RIDs of the five generated
    resources (it also frees the material and the shader). *)
Definition clear_freed (s : Storage) : list nat :=
  filter (Nat.ltb 0)
    [g_rid (generated_height_maps s); g_rid (generated_control_maps s);
     g_rid (generated_albedo_textures s); g_rid (generated_normal_textures s);
     g_rid (generated_region_map s)].

(** * Properties *)

(** Crack the [let '(g, srv) := ... in] bindings of the threaded server. *)
Ltac split_lets :=
  repeat match goal with
         | |- context [match ?e with pair _ _ => _ end] => destruct e
         end.

(** ** Frame lemmas: what the cache passes do not touch *)

Lemma update_regions_frame (s : Storage) :
  let t := _update_regions s in
  region_size t = region_size s /\ region_offsets t = region_offsets s /\
  height_maps t = height_maps s /\ control_maps t = control_maps s /\
  layers t = layers s /\
  errors t = errors s ++ (if is_dirty (generated_region_map s)
                          then region_map_errors (region_offsets s) else []) /\
  generated_albedo_textures t = generated_albedo_textures s /\
  generated_normal_textures t = generated_normal_textures s.
Proof. unfold _update_regions; split_lets; simpl; tauto. Qed.

Lemma clear_region_caches_frame (s : Storage) :
  let t := clear_region_caches s in
  region_size t = region_size s /\ region_offsets t = region_offsets s /\
  height_maps t = height_maps s /\ control_maps t = control_maps s /\
  layers t = layers s /\ errors t = errors s /\
  generated_albedo_textures t = generated_albedo_textures s /\
  generated_normal_textures t = generated_normal_textures s.
Proof. unfold clear_region_caches; split_lets; simpl; tauto. Qed.

Lemma clear_region_caches_dirty (s : Storage) :
  let t := clear_region_caches s in
  is_dirty (generated_height_maps t) = true /\
  is_dirty (generated_control_maps t) = true /\
  is_dirty (generated_region_map t) = true.
Proof. unfold clear_region_caches, gen_clear; simpl; auto. Qed.

(** ** Region index search *)

Lemma find_offset_range (uv : Z * Z) (l : list (Z * Z)) (k : Z) :
  0 <= k ->
  find_offset uv l k = -1 \/
  (k <= find_offset uv l k < k + Z.of_nat (List.length l) /\
   nth_error l (Z.to_nat (find_offset uv l k - k)) = Some uv).
Proof.
  revert k; induction l as [|x t IH]; intros k Hk; simpl; [now left|].
  destruct (offset_eqb x uv) eqn:E.
  - right; split; [lia|]. replace (k - k) with 0 by lia; simpl.
    unfold offset_eqb in E; apply andb_true_iff in E as [E1 E2].
    apply Z.eqb_eq in E1; apply Z.eqb_eq in E2; destruct x, uv; simpl in *; congruence.
  - destruct (IH (k + 1) ltac:(lia)) as [H|[H1 H2]]; [now left|right].
    split; [lia|]. replace (Z.to_nat (find_offset uv t (k + 1) - k))
      with (S (Z.to_nat (find_offset uv t (k + 1) - (k + 1)))) by lia.
    exact H2.
Qed.

Lemma find_offset_app_new (uv : Z * Z) (l : list (Z * Z)) (k : Z) :
  0 <= k -> find_offset uv l k = -1 ->
  find_offset uv (l ++ [uv]) k = k + Z.of_nat (List.length l).
Proof.
  revert k; induction l as [|x t IH]; intros k Hk H; simpl in *.
  - unfold offset_eqb; rewrite !Z.eqb_refl; simpl; lia.
  - destruct (offset_eqb x uv); [lia|]. rewrite IH by lia. lia.
Qed.

(** ** Compaction by [remove_at] *)

Lemma remove_at_spec {A} (i : Z) (l : list A) :
  0 <= i < Z.of_nat (List.length l) ->
  List.length (remove_at i l) = pred (List.length l) /\
  forall j, nth_error (remove_at i l) j =
            nth_error l (if Nat.ltb j (Z.to_nat i) then j else S j).
Proof.
  intros Hi. unfold remove_at.
  replace ((0 <=? i) && (i <? Z.of_nat (List.length l))) with true
    by (symmetry; apply andb_true_iff; split; [apply Z.leb_le|apply Z.ltb_lt]; lia).
  assert (Hn : (Z.to_nat i < List.length l)%nat) by lia.
  split.
  - rewrite length_app, length_firstn, length_skipn. lia.
  - intros j. destruct (Nat.ltb j (Z.to_nat i)) eqn:E.
    + apply Nat.ltb_lt in E. rewrite nth_error_app1 by (rewrite length_firstn; lia).
      rewrite nth_error_firstn. apply Nat.ltb_lt in E. rewrite E. reflexivity.
    + apply Nat.ltb_ge in E. rewrite nth_error_app2 by (rewrite length_firstn; lia).
      rewrite nth_error_skipn, length_firstn.
      f_equal. lia.
Qed.

(** ** Layers: the update pass succeeds on non-null layers *)

Definition all_non_null (ls : list (option LayerMat)) : bool :=
  forallb (fun o => match o with Some _ => true | None => false end) ls.

(** A layer with a texture of the kind [f] reads. *)
Definition has_texture (f : LayerMat -> option nat) (o : option LayerMat) : bool :=
  match o with Some m => is_texture (f m) | None => false end.

Lemma connect_layers_ok (ls : list (option LayerMat)) (conns : list Connection) :
  all_non_null ls = true -> exists c, connect_layers ls conns = Some c.
Proof.
  revert conns; induction ls as [|[m|] t IH]; intros conns H; simpl in *;
    [eauto | apply IH; exact H | discriminate].
Qed.

Lemma layer_textures_ok (f : LayerMat -> option nat) (ls : list (option LayerMat)) :
  all_non_null ls = true -> exists a, layer_textures f ls = Some a.
Proof.
  induction ls as [|[m|] t IH]; intros H; simpl in *; [eauto| |discriminate].
  destruct (IH H) as [a Ha]; rewrite Ha; simpl; eauto.
Qed.

Lemma layer_textures_has (f : LayerMat -> option nat) (ls : list (option LayerMat))
    (arr : list (option nat)) :
  layer_textures f ls = Some arr -> existsb is_texture arr = existsb (has_texture f) ls.
Proof.
  revert arr; induction ls as [|[m|] t IH]; intros arr H; simpl in *.
  - injection H as <-. reflexivity.
  - destruct (layer_textures f t) as [a|] eqn:E; [|discriminate H].
    injection H as <-. simpl. rewrite (IH a eq_refl). reflexivity.
  - discriminate H.
Qed.

(** The update pass on non-null layers, one of them with an albedo and one
    with a normal texture: it succeeds, and each dirty texture cache is
    cleared again after the refused conversion. *)
Lemma update_layers_ok (s : Storage) :
  all_non_null (layers s) = true ->
  existsb (has_texture lm_albedo_texture) (layers s) = true ->
  existsb (has_texture lm_normal_texture) (layers s) = true ->
  exists t, _update_layers s = Some t /\ layers t = layers s /\
            region_offsets t = region_offsets s /\
            connect_layers (layers s) (connections s) = Some (connections t) /\
            (is_dirty (generated_albedo_textures s) = true ->
               generated_albedo_textures t = mkGenerated 0 None true) /\
            (is_dirty (generated_normal_textures s) = true ->
               generated_normal_textures t = mkGenerated 0 None true) /\
            errors t = errors s ++
              (if is_dirty (generated_albedo_textures s) then [typed_array_error] else []) ++
              (if is_dirty (generated_normal_textures s) then [typed_array_error] else []).
Proof.
  intros H HA HN. unfold _update_layers.
  destruct (connect_layers_ok (layers s) (connections s) H) as [c Hc]; rewrite Hc.
  unfold _update_arrays; simpl.
  destruct (layer_textures_ok lm_albedo_texture (layers s) H) as [a Ha]; rewrite Ha.
  destruct (layer_textures_ok lm_normal_texture (layers s) H) as [b Hb].
  pose proof (layer_textures_has _ _ _ Ha) as Ea. rewrite HA in Ea.
  pose proof (layer_textures_has _ _ _ Hb) as Eb. rewrite HN in Eb.
  unfold _update_textures; simpl. rewrite Ha, Hb.
  unfold create_texture_array. rewrite Ea, Eb.
  destruct (generated_albedo_textures s) as [ra ia da];
    destruct (generated_normal_textures s) as [rn ino dn]; simpl.
  destruct da, dn; unfold gen_clear; simpl; eexists; split; try reflexivity; simpl;
    repeat split; auto; discriminate.
Qed.

(** ** Adding a region at a fresh offset *)

Lemma add_region_fresh_lists (p : Vector3) (s : Storage) :
  has_region p s = false ->
  let t := add_region p s in
  let rs := region_size s in
  region_size t = rs /\
  region_offsets t = region_offsets s ++ [_get_offset_from p s] /\
  height_maps t = height_maps s ++ [image_fill (mkColor 0 0 0 1) (image_create rs rs FORMAT_RH)] /\
  control_maps t = control_maps s ++ [image_fill (mkColor 0 0 0 1) (image_create rs rs FORMAT_RGBA8)] /\
  errors t = errors s ++ region_map_errors (region_offsets s ++ [_get_offset_from p s]).
Proof.
  intros H. unfold add_region. rewrite H.
  destruct (update_regions_frame (clear_region_caches
     (set_region_lists s (region_offsets s ++ [_get_offset_from p s])
        (height_maps s ++ [image_fill (mkColor 0 0 0 1)
                             (image_create (region_size s) (region_size s) FORMAT_RH)])
        (control_maps s ++ [image_fill (mkColor 0 0 0 1)
                              (image_create (region_size s) (region_size s) FORMAT_RGBA8)]))))
    as (E1 & E2 & E3 & E4 & _ & E6 & _).
  destruct (clear_region_caches_frame
     (set_region_lists s (region_offsets s ++ [_get_offset_from p s])
        (height_maps s ++ [image_fill (mkColor 0 0 0 1)
                             (image_create (region_size s) (region_size s) FORMAT_RH)])
        (control_maps s ++ [image_fill (mkColor 0 0 0 1)
                              (image_create (region_size s) (region_size s) FORMAT_RGBA8)])))
    as (F1 & F2 & F3 & F4 & _ & F6 & _).
  destruct (clear_region_caches_dirty
     (set_region_lists s (region_offsets s ++ [_get_offset_from p s])
        (height_maps s ++ [image_fill (mkColor 0 0 0 1)
                             (image_create (region_size s) (region_size s) FORMAT_RH)])
        (control_maps s ++ [image_fill (mkColor 0 0 0 1)
                              (image_create (region_size s) (region_size s) FORMAT_RGBA8)])))
    as (_ & _ & D3).
  simpl. rewrite E1, E2, E3, E4, E6, D3, F1, F2, F3, F4, F6. simpl. auto.
Qed.







(** ** Removing a region *)

(** [C2 (amended)] Removing the region found at index [i] (the count not
    being 1) compacts the offset, height-map and control-map lists at [i]:
    the result has one element less, slots before [i] keep their region and
    every region after [i] moves down by one slot. *)
Theorem remove_region_compacts (p : Vector3) (s : Storage)
    (Hc : (get_region_count s =? 1) = false)
    (Hf : has_region p s = true) :
  let i := get_region_index p s in
  let s' := remove_region p s in
  region_offsets s' = remove_at i (region_offsets s) /\
  height_maps s' = remove_at i (height_maps s) /\
  control_maps s' = remove_at i (control_maps s) /\
  List.length (region_offsets s') = pred (List.length (region_offsets s)) /\
  forall j, nth_error (region_offsets s') j =
            nth_error (region_offsets s) (if Nat.ltb j (Z.to_nat i) then j else S j).
Proof.
  unfold has_region in Hf. apply negb_true_iff, Z.eqb_neq in Hf.
  intros i s'. subst s'.
  unfold remove_region. rewrite Hc.
  replace (get_region_index p s =? -1) with false by (symmetry; apply Z.eqb_neq; exact Hf).
  fold i.
  destruct (update_regions_frame (clear_region_caches
     (set_region_lists s (remove_at i (region_offsets s))
        (remove_at i (height_maps s)) (remove_at i (control_maps s)))))
    as (_ & E2 & E3 & E4 & _).
  destruct (clear_region_caches_frame
     (set_region_lists s (remove_at i (region_offsets s))
        (remove_at i (height_maps s)) (remove_at i (control_maps s))))
    as (_ & F2 & F3 & F4 & _).
  rewrite E2, E3, E4, F2, F3, F4. simpl.
  assert (Hr : 0 <= i < Z.of_nat (List.length (region_offsets s))).
  { subst i. unfold get_region_index in *.
    destruct (find_offset_range (_get_offset_from p s) (region_offsets s) 0 ltac:(lia))
      as [H|[H _]]; [contradiction|lia]. }
  destruct (remove_at_spec i (region_offsets s) Hr) as [L N].
  repeat split; auto.
Qed.

Lemma remove_region_compacts_witness :
  (get_region_count three_regions =? 1) = false /\
  has_region origin three_regions = true /\
  (let i := get_region_index origin three_regions in
   let s' := remove_region origin three_regions in
   region_offsets s' = remove_at i (region_offsets three_regions) /\
   height_maps s' = remove_at i (height_maps three_regions) /\
   control_maps s' = remove_at i (control_maps three_regions) /\
   List.length (region_offsets s') = pred (List.length (region_offsets three_regions)) /\
   forall j, nth_error (region_offsets s') j =
             nth_error (region_offsets three_regions)
               (if Nat.ltb j (Z.to_nat i) then j else S j)).
Proof.
  refine (conj _ (conj _ _)); [vm_compute; reflexivity .. |].
  apply (remove_region_compacts origin three_regions); vm_compute; reflexivity.
Defined.

(** [C2 (counterexample)] Offsets [(0,0); (1,0); (2,0)]: removing the region
    at index 0 leaves [(1,0)] at index 0, not the last region [(2,0)]. *)
Lemma remove_region_not_swap_last :
  region_offsets three_regions = [(0, 0); (1, 0); (2, 0)] /\
  get_region_index origin three_regions = 0 /\
  region_offsets (remove_region origin three_regions) = [(1, 0); (2, 0)] /\
  nth_error (region_offsets (remove_region origin three_regions)) 0 <>
    nth_error (region_offsets three_regions) 2.
Proof. vm_compute. repeat split; discriminate. Qed.

(** [C7] With exactly one region, [remove_region] returns at once: the
    whole state (lists, caches and their dirty flags, log) is unchanged. *)
Theorem remove_region_floor_noop (p : Vector3) (s : Storage)
    (H : get_region_count s = 1) :
  remove_region p s = s.
Proof. unfold remove_region. rewrite H. reflexivity. Qed.

Lemma remove_region_floor_noop_witness :
  get_region_count one_region = 1 /\ remove_region origin one_region = one_region.
Proof.
  split; [vm_compute; reflexivity|].
  apply remove_region_floor_noop. vm_compute. reflexivity.
Defined.

(** ** Offsets and maps *)

(** [C5 (code_bug)] [set_region_offsets] replaces the offset list and
    touches no cache: in particular the region-map cache keeps its dirty
    flag and its image.  On the one-region state, replacing the offsets by
    [[(3,0)]] leaves the region-map cache Clean, its image still encoding
    the old offset [(0,0)] at cell [(8,8)]. *)
Theorem set_region_offsets_keeps_caches (L : list (Z * Z)) (s : Storage) :
  (let s' := set_region_offsets L s in
   region_offsets s' = L /\
   generated_region_map s' = generated_region_map s /\
   generated_height_maps s' = generated_height_maps s /\
   generated_control_maps s' = generated_control_maps s /\
   generated_albedo_textures s' = generated_albedo_textures s /\
   generated_normal_textures s' = generated_normal_textures s) /\
  (let s1 := set_region_offsets [(3, 0)] one_region in
   is_dirty (generated_region_map one_region) = false /\
   is_dirty (generated_region_map s1) = false /\
   option_map (fun img => cr (image_get_pixel img 8 8)) (g_image (generated_region_map s1))
     = Some (1 # 255)%Q).
Proof. split; [simpl; repeat split | vm_compute; repeat split]. Qed.

(** ** Region map pixels *)

Lemma image_get_pixel_in (img : Image) (x y : Z) :
  in_bounds img x y = true -> image_get_pixel img x y = img_data img x y.
Proof. unfold image_get_pixel. intros H; rewrite H; reflexivity. Qed.

Lemma in_bounds_grid (img : Image) (x y : Z) :
  img_width img = 16 -> img_height img = 16 -> 0 <= x < 16 -> 0 <= y < 16 ->
  in_bounds img x y = true.
Proof.
  intros Hw Hh Hx Hy. unfold in_bounds. rewrite Hw, Hh.
  rewrite (proj2 (Z.leb_le 0 x)), (proj2 (Z.ltb_lt x 16)),
    (proj2 (Z.leb_le 0 y)), (proj2 (Z.ltb_lt y 16)) by lia; reflexivity.
Qed.

Lemma build_region_map_single (x y : Z) :
  img_data (build_region_map [(0, 0)]) x y =
  if (x =? 8) && (y =? 8) then mkColor (inject_Z (0 + 1) / 255) 1 0 1 else mkColor 0 0 0 1.
Proof. reflexivity. Qed.

Lemma build_region_map_empty (x y : Z) :
  img_data (build_region_map []) x y = mkColor 0 0 0 1.
Proof. reflexivity. Qed.

Lemma update_regions_region_map (t : Storage) :
  is_dirty (generated_region_map t) = true ->
  g_image (generated_region_map (_update_regions t)) = Some (build_region_map (region_offsets t)) /\
  is_dirty (generated_region_map (_update_regions t)) = false.
Proof.
  intros Ht. unfold _update_regions, gen_create_image, rs_texture_create.
  rewrite Ht. split_lets. simpl. auto.
Qed.

(** [C8] The region-map rebuild of [_update_regions] (when that cache is
    dirty) stores [build_region_map] of the current offsets.  With
    [region_map_size = 16]: for the single offset [(0,0)] the 16x16 grid
    holds red [(0+1)/255] and green weight 1 at cell [(8,8)] and zero red
    and green everywhere else; for no offsets every cell is zero. *)
Theorem region_map_encoding (s e : Storage)
    (Hd : is_dirty (generated_region_map s) = true)
    (Ho : region_offsets s = [(0, 0)])
    (Hde : is_dirty (generated_region_map e) = true)
    (He : region_offsets e = []) :
  (exists img,
     g_image (generated_region_map (_update_regions s)) = Some img /\
     is_dirty (generated_region_map (_update_regions s)) = false /\
     img_width img = 16 /\ img_height img = 16 /\
     (cr (image_get_pixel img 8 8) == (0 + 1) # 255)%Q /\
     (cg (image_get_pixel img 8 8) == 1)%Q /\
     forall x y, 0 <= x < 16 -> 0 <= y < 16 -> (x, y) <> (8, 8) ->
       (cr (image_get_pixel img x y) == 0)%Q /\ (cg (image_get_pixel img x y) == 0)%Q) /\
  (exists img,
     g_image (generated_region_map (_update_regions e)) = Some img /\
     is_dirty (generated_region_map (_update_regions e)) = false /\
     img_width img = 16 /\ img_height img = 16 /\
     forall x y, 0 <= x < 16 -> 0 <= y < 16 ->
       (cr (image_get_pixel img x y) == 0)%Q /\ (cg (image_get_pixel img x y) == 0)%Q).
Proof.
  split.
  - destruct (update_regions_region_map s Hd) as [G D]. rewrite Ho in G.
    eexists; split; [exact G|]. split; [exact D|].
    assert (W : img_width (build_region_map [(0, 0)]) = 16) by reflexivity.
    assert (H : img_height (build_region_map [(0, 0)]) = 16) by reflexivity.
    split; [exact W|]. split; [exact H|].
    rewrite image_get_pixel_in by (apply in_bounds_grid; auto; lia).
    rewrite build_region_map_single. simpl.
    split; [reflexivity|]. split; [reflexivity|].
    intros x y Hx Hy Hne.
    rewrite image_get_pixel_in by (apply in_bounds_grid; auto).
    rewrite build_region_map_single.
    replace ((x =? 8) && (y =? 8)) with false.
    + split; reflexivity.
    + symmetry. apply andb_false_iff.
      destruct (Z.eq_dec x 8); [right; apply Z.eqb_neq; congruence | left; apply Z.eqb_neq; auto].
  - destruct (update_regions_region_map e Hde) as [G D]. rewrite He in G.
    eexists; split; [exact G|]. split; [exact D|].
    split; [reflexivity|]. split; [reflexivity|].
    intros x y Hx Hy.
    rewrite image_get_pixel_in by (apply in_bounds_grid; auto).
    rewrite build_region_map_empty. split; reflexivity.
Qed.

Lemma region_map_encoding_witness :
  let s := clear_region_caches one_region in
  let e := clear_region_caches new_storage in
  is_dirty (generated_region_map s) = true /\ region_offsets s = [(0, 0)] /\
  is_dirty (generated_region_map e) = true /\ region_offsets e = [] /\
  ((exists img,
     g_image (generated_region_map (_update_regions s)) = Some img /\
     is_dirty (generated_region_map (_update_regions s)) = false /\
     img_width img = 16 /\ img_height img = 16 /\
     (cr (image_get_pixel img 8 8) == (0 + 1) # 255)%Q /\
     (cg (image_get_pixel img 8 8) == 1)%Q /\
     forall x y, 0 <= x < 16 -> 0 <= y < 16 -> (x, y) <> (8, 8) ->
       (cr (image_get_pixel img x y) == 0)%Q /\ (cg (image_get_pixel img x y) == 0)%Q) /\
  (exists img,
     g_image (generated_region_map (_update_regions e)) = Some img /\
     is_dirty (generated_region_map (_update_regions e)) = false /\
     img_width img = 16 /\ img_height img = 16 /\
     forall x y, 0 <= x < 16 -> 0 <= y < 16 ->
       (cr (image_get_pixel img x y) == 0)%Q /\ (cg (image_get_pixel img x y) == 0)%Q)).
Proof.
  intros s e.
  refine (conj _ (conj _ (conj _ (conj _ _)))); [vm_compute; reflexivity .. |].
  apply (region_map_encoding s e); vm_compute; reflexivity.
Defined.

(** [C9 (amended)] [set_region_size] only checks the range [64 .. 2048]:
    outside it the size is kept and one error is logged; inside it (which
    includes 64, 128, 256, 512, 1024 and 2048) the size becomes [p]. *)
Theorem set_region_size_range_check (p : Z) (s : Storage) :
  let ok := (64 <=? p) && (p <=? 2048) in
  region_size (set_region_size p s) = (if ok then p else region_size s) /\
  List.length (errors (set_region_size p s)) =
    (List.length (errors s) + (if ok then 0 else 1))%nat.
Proof.
  unfold set_region_size.
  destruct (p <? 64) eqn:E1; [|destruct (p >? 2048) eqn:E2].
  - replace ((64 <=? p) && (p <=? 2048)) with false
      by (apply Z.ltb_lt in E1; symmetry; apply andb_false_iff; left; apply Z.leb_gt; lia).
    simpl. rewrite length_app. auto.
  - replace ((64 <=? p) && (p <=? 2048)) with false
      by (apply Z.gtb_lt in E2; symmetry; apply andb_false_iff; right; apply Z.leb_gt; lia).
    simpl. rewrite length_app. auto.
  - replace ((64 <=? p) && (p <=? 2048)) with true
      by (apply Z.ltb_ge in E1; rewrite Z.gtb_ltb in E2; apply Z.ltb_ge in E2;
          symmetry; apply andb_true_iff; split; apply Z.leb_le; lia).
    simpl. split; [reflexivity | lia].
Qed.

(** [C9 (counterexample)] The size 100 is not one of the six sizes, yet
    [set_region_size 100] succeeds silently. *)
Lemma set_region_size_accepts_100 :
  region_size (set_region_size 100 new_storage) = 100 /\
  errors (set_region_size 100 new_storage) = [].
Proof. vm_compute. split; reflexivity. Qed.

(** [C10] [get_map] is a pure read: for [TYPE_COLOR] and [TYPE_MAX] it
    returns a null image whatever the index and the state (so no list is
    read); only [TYPE_HEIGHT] and [TYPE_CONTROL] index into a list. *)
Theorem get_map_color_max_null (i : Z) (s : Storage) :
  get_map i TYPE_COLOR s = Some None /\
  get_map i TYPE_MAX s = Some None /\
  get_map i TYPE_HEIGHT s = option_map Some (array_get (height_maps s) i) /\
  get_map i TYPE_CONTROL s = option_map Some (array_get (control_maps s) i).
Proof. repeat split. Qed.

(** ** Material parameters *)

Lemma param_get_set_same (k : string) (v : ParamVal) (l : list (string * ParamVal)) :
  param_get k (param_set k v l) = Some v.
Proof.
  induction l as [|[k' v'] t IH]; simpl; [now rewrite String.eqb_refl|].
  destruct (String.eqb k k') eqn:E; simpl; [now rewrite String.eqb_refl|].
  rewrite E. exact IH.
Qed.

Lemma param_get_set_other (k k' : string) (v : ParamVal) (l : list (string * ParamVal)) :
  String.eqb k k' = false -> param_get k (param_set k' v l) = param_get k l.
Proof.
  intros Hk. induction l as [|[k'' v''] t IH]; simpl; [now rewrite Hk|].
  destruct (String.eqb k' k'') eqn:E; simpl.
  - apply String.eqb_eq in E; subst k''. rewrite Hk. reflexivity.
  - destruct (String.eqb k k''); [reflexivity | exact IH].
Qed.

Lemma param_set_id (k : string) (v : ParamVal) (l : list (string * ParamVal)) :
  param_get k l = Some v -> param_set k v l = l.
Proof.
  induction l as [|[k' v'] t IH]; simpl; [discriminate|].
  destruct (String.eqb k k') eqn:E.
  - intros H; injection H as ->. apply String.eqb_eq in E; subst. reflexivity.
  - intros H; rewrite (IH H). reflexivity.
Qed.

Lemma rs_set_param_id (k : string) (v : ParamVal) (srv : Server) :
  param_get k (rs_params srv) = Some v -> rs_material_set_param k v srv = srv.
Proof.
  destruct srv as [n tx ps]; unfold rs_material_set_param; simpl.
  intros H; rewrite (param_set_id k v ps H); reflexivity.
Qed.

(** ** The update pass reaches a fixed point *)

(** A map cache after a pass: Clean, or emptied by building from an empty
    source list. *)
Definition settled {A} (g : Generated) (l : list A) : Prop :=
  g_dirty g = false \/ (g = mkGenerated 0 None true /\ l = []).

Definition regions_settled (t : Storage) : Prop :=
  settled (generated_height_maps t) (height_maps t) /\
  settled (generated_control_maps t) (control_maps t) /\
  g_dirty (generated_region_map t) = false /\
  param_get "height_maps" (rs_params (server t)) = Some (PRid (g_rid (generated_height_maps t))) /\
  param_get "control_maps" (rs_params (server t)) = Some (PRid (g_rid (generated_control_maps t))) /\
  param_get "region_map" (rs_params (server t)) = Some (PRid (g_rid (generated_region_map t))) /\
  param_get "region_map_size" (rs_params (server t)) = Some (PInt region_map_size).

Lemma layers_step_fixed {A} (mk : list A -> TexData) (l : list A) (g : Generated) (srv : Server) :
  settled g l ->
  (if is_dirty g then gen_create_layers mk l g srv else (g, srv)) = (g, srv).
Proof.
  unfold is_dirty. intros [H | [-> ->]]; [rewrite H; reflexivity | reflexivity].
Qed.

Lemma layers_step_settles {A} (mk : list A -> TexData) (l : list A) (g : Generated) (srv : Server) :
  settled (fst (if is_dirty g then gen_create_layers mk l g srv else (g, srv))) l.
Proof.
  unfold is_dirty, settled. destruct (g_dirty g) eqn:D.
  - destruct l; simpl; [right; auto | left; reflexivity].
  - left; exact D.
Qed.

Lemma image_step_clean (img : Image) (g : Generated) (srv : Server) :
  g_dirty (fst (if is_dirty g then gen_create_image img g srv else (g, srv))) = false.
Proof. unfold is_dirty. destruct (g_dirty g) eqn:D; [reflexivity | exact D]. Qed.

Lemma update_regions_settled (s : Storage) : regions_settled (_update_regions s).
Proof.
  pose proof (layers_step_settles LayeredImages (height_maps s) (generated_height_maps s) (server s)) as Sh.
  unfold _update_regions.
  destruct (if is_dirty (generated_height_maps s) then _ else _) as [gh srv1] eqn:Eh.
  simpl in Sh.
  pose proof (layers_step_settles LayeredImages (control_maps s) (generated_control_maps s) srv1) as Sc.
  destruct (if is_dirty (generated_control_maps s) then _ else _) as [gc srv2] eqn:Ec.
  simpl in Sc.
  pose proof (image_step_clean (build_region_map (region_offsets s)) (generated_region_map s) srv2) as Sr.
  destruct (if is_dirty (generated_region_map s) then _ else _) as [gr srv3] eqn:Er.
  simpl in Sr.
  unfold regions_settled, rs_material_set_param; simpl.
  refine (conj Sh (conj Sc (conj Sr _))).
  repeat rewrite param_get_set_other by reflexivity.
  rewrite !param_get_set_same.
  repeat split;
    repeat (rewrite param_get_set_other by reflexivity); apply param_get_set_same.
Qed.

Lemma settled_update_fixed (t : Storage) : regions_settled t -> _update_regions t = t.
Proof.
  intros (Hh & Hc & Hr & P1 & P2 & P3 & P4).
  unfold _update_regions.
  rewrite (layers_step_fixed LayeredImages _ _ (server t) Hh).
  rewrite (layers_step_fixed LayeredImages _ _ (server t) Hc).
  unfold is_dirty; rewrite Hr.
  rewrite (rs_set_param_id _ _ _ P1), (rs_set_param_id _ _ _ P2),
    (rs_set_param_id _ _ _ P3), (rs_set_param_id _ _ _ P4).
  unfold log_errors. cbn [set_map_caches errors]. rewrite app_nil_r.
  destruct t; reflexivity.
Qed.

Lemma layers_step_dirty {A} (mk : list A -> TexData) (l : list A) (g : Generated) (srv : Server) :
  g_dirty (fst (if is_dirty g then gen_create_layers mk l g srv else (g, srv))) =
  is_dirty g && match l with [] => true | _ => false end.
Proof. unfold is_dirty. destruct (g_dirty g) eqn:D; [destruct l; reflexivity | exact D]. Qed.

(** [C4 (amended)] After one [_update_regions] pass the region-map cache is
    Clean, and the height-map (control-map) cache is Clean unless it was
    dirty with an empty height-map (control-map) list, in which case
    [Generated::create] has cleared it and it stays Dirty.  A second pass
    with no mutation in between leaves the whole state unchanged: the only
    work it can do is re-clearing such a handle-less cache. *)
Theorem update_regions_idempotent (s : Storage) :
  let t := _update_regions s in
  is_dirty (generated_region_map t) = false /\
  is_dirty (generated_height_maps t) =
    is_dirty (generated_height_maps s) && match height_maps s with [] => true | _ => false end /\
  is_dirty (generated_control_maps t) =
    is_dirty (generated_control_maps s) && match control_maps s with [] => true | _ => false end /\
  _update_regions t = t.
Proof.
  intros t.
  refine (conj _ (conj _ (conj _ (settled_update_fixed t (update_regions_settled s))))).
  - exact (proj1 (proj2 (proj2 (update_regions_settled s)))).
  - subst t. unfold _update_regions.
    pose proof (layers_step_dirty LayeredImages (height_maps s) (generated_height_maps s) (server s)) as Dh.
    destruct (if is_dirty (generated_height_maps s) then _ else _) as [gh srv1].
    split_lets. exact Dh.
  - subst t. unfold _update_regions.
    destruct (if is_dirty (generated_height_maps s) then _ else _) as [gh srv1].
    pose proof (layers_step_dirty LayeredImages (control_maps s) (generated_control_maps s) srv1) as Dc.
    destruct (if is_dirty (generated_control_maps s) then _ else _) as [gc srv2].
    split_lets. exact Dc.
Qed.

(** [C4 (counterexample)] After [set_height_maps []] the height-map cache
    is dirty with an empty source; a pass leaves it dirty, so the next
    pass's dirty check on it succeeds again. *)
Lemma update_regions_empty_source_stays_dirty :
  let x := set_height_maps [] one_region in
  height_maps x = [] /\
  is_dirty (generated_height_maps (_update_regions x)) = true /\
  is_dirty (generated_height_maps (_update_regions (_update_regions x))) = true.
Proof. vm_compute. repeat split. Qed.

(** ** The pass run by [add_region] and [force_update_maps] *)





Lemma update_regions_caches (u : Storage) :
  let t := _update_regions u in
  is_dirty (generated_height_maps t) =
    is_dirty (generated_height_maps u) && match height_maps u with [] => true | _ => false end /\
  is_dirty (generated_control_maps t) =
    is_dirty (generated_control_maps u) && match control_maps u with [] => true | _ => false end /\
  is_dirty (generated_region_map t) = false /\
  (is_dirty (generated_height_maps u) = false -> generated_height_maps t = generated_height_maps u) /\
  (is_dirty (generated_control_maps u) = false -> generated_control_maps t = generated_control_maps u) /\
  (is_dirty (generated_region_map u) = false -> generated_region_map t = generated_region_map u).
Proof.
  unfold _update_regions.
  pose proof (layers_step_dirty LayeredImages (height_maps u) (generated_height_maps u) (server u)) as Dh.
  destruct (if is_dirty (generated_height_maps u) then _ else _) as [gh srv1] eqn:Eh.
  pose proof (layers_step_dirty LayeredImages (control_maps u) (generated_control_maps u) srv1) as Dc.
  destruct (if is_dirty (generated_control_maps u) then _ else _) as [gc srv2] eqn:Ec.
  pose proof (image_step_clean (build_region_map (region_offsets u)) (generated_region_map u) srv2) as Dr.
  destruct (if is_dirty (generated_region_map u) then _ else _) as [gr srv3] eqn:Er.
  simpl in *. refine (conj Dh (conj Dc (conj Dr _))).
  repeat split; intros H.
  - rewrite H in Eh. congruence.
  - rewrite H in Ec. congruence.
  - rewrite H in Er. congruence.
Qed.

(** [C6 (amended)] [force_update_maps TYPE_HEIGHT] clears the height-map
    cache and then runs the update pass itself, so on return the height
    cache is Clean again (rebuilt) unless the height-map list is empty, in
    which case it is Dirty.  A Clean control-map or region-map cache is left
    exactly as it was; a control-map or region-map cache that was already
    Dirty is rebuilt by the same pass like any dirty cache.  The texture
    caches and the source lists are not touched. *)
Theorem force_update_height_effect (s : Storage) :
  let t := force_update_maps TYPE_HEIGHT s in
  is_dirty (generated_height_maps t) = match height_maps s with [] => true | _ => false end /\
  (is_dirty (generated_control_maps s) = false ->
     generated_control_maps t = generated_control_maps s) /\
  (is_dirty (generated_region_map s) = false ->
     generated_region_map t = generated_region_map s) /\
  is_dirty (generated_control_maps t) =
    is_dirty (generated_control_maps s) && match control_maps s with [] => true | _ => false end /\
  is_dirty (generated_region_map t) = false /\
  generated_albedo_textures t = generated_albedo_textures s /\
  generated_normal_textures t = generated_normal_textures s /\
  region_offsets t = region_offsets s /\ height_maps t = height_maps s /\
  control_maps t = control_maps s.
Proof.
  unfold force_update_maps, gen_clear. simpl.
  set (u := set_map_caches s _ _ _ _).
  destruct (update_regions_caches u) as (Dh & Dc & Dr & _ & Uc & Ur).
  destruct (update_regions_frame u) as (_ & O & H & C & _ & _ & A & N).
  rewrite Dh, Dc, Dr, O, H, C, A, N. subst u; simpl.
  repeat split; auto.
Qed.

Lemma force_update_height_effect_witness :
  let t := force_update_maps TYPE_HEIGHT one_region in
  is_dirty (generated_height_maps t) = match height_maps one_region with [] => true | _ => false end /\
  (is_dirty (generated_control_maps one_region) = false ->
     generated_control_maps t = generated_control_maps one_region) /\
  (is_dirty (generated_region_map one_region) = false ->
     generated_region_map t = generated_region_map one_region) /\
  is_dirty (generated_control_maps t) =
    is_dirty (generated_control_maps one_region) &&
      match control_maps one_region with [] => true | _ => false end /\
  is_dirty (generated_region_map t) = false /\
  generated_albedo_textures t = generated_albedo_textures one_region /\
  generated_normal_textures t = generated_normal_textures one_region /\
  region_offsets t = region_offsets one_region /\ height_maps t = height_maps one_region /\
  control_maps t = control_maps one_region.
Proof. exact (force_update_height_effect one_region). Defined.

(** [C6 (counterexample)] On the one-region state, [force_update_maps
    TYPE_HEIGHT] does not leave the height cache Dirty: the call has
    already rebuilt it. *)
Lemma force_update_height_not_left_dirty :
  is_dirty (generated_height_maps one_region) = false /\
  is_dirty (generated_height_maps (force_update_maps TYPE_HEIGHT one_region)) = false.
Proof. vm_compute. split; reflexivity. Qed.

(** * Further properties of the storage *)

(** ** Region index *)

Lemma find_offset_first (uv : Z * Z) (l : list (Z * Z)) (k : Z) :
  0 <= k ->
  (find_offset uv l k = -1 /\ ~ In uv l) \/
  (k <= find_offset uv l k /\
   nth_error l (Z.to_nat (find_offset uv l k - k)) = Some uv /\
   forall j, (j < Z.to_nat (find_offset uv l k - k))%nat -> nth_error l j <> Some uv).
Proof.
  revert k; induction l as [|x t IH]; intros k Hk; simpl.
  - left; auto.
  - destruct (offset_eqb x uv) eqn:E.
    + unfold offset_eqb in E; apply andb_true_iff in E as [E1 E2].
      apply Z.eqb_eq in E1; apply Z.eqb_eq in E2.
      assert (x = uv) by (destruct x, uv; simpl in *; congruence). subst x.
      right. replace (k - k) with 0 by lia. simpl. repeat split; [lia|]. intros j Hj; lia.
    + assert (Hx : x <> uv).
      { intros ->. unfold offset_eqb in E. rewrite !Z.eqb_refl in E. discriminate. }
      destruct (IH (k + 1) ltac:(lia)) as [[H1 H2]|(H1 & H2 & H3)].
      * left. split; [exact H1|]. intros [H|H]; contradiction.
      * right. replace (Z.to_nat (find_offset uv t (k + 1) - k))
          with (S (Z.to_nat (find_offset uv t (k + 1) - (k + 1)))) by lia.
        split; [lia|]. split; [exact H2|].
        intros [|j] Hj; simpl; [congruence|]. apply H3. lia.
Qed.

(** [get_region_index] returns [-1] exactly when no region has the grid
    offset of the position, and otherwise the first slot holding it. *)
Theorem get_region_index_spec (p : Vector3) (s : Storage) :
  let i := get_region_index p s in
  let uv := _get_offset_from p s in
  (i = -1 /\ ~ In uv (region_offsets s)) \/
  (0 <= i < get_region_count s /\
   nth_error (region_offsets s) (Z.to_nat i) = Some uv /\
   forall j, (j < Z.to_nat i)%nat -> nth_error (region_offsets s) j <> Some uv).
Proof.
  intros i uv. unfold i, get_region_index, get_region_count.
  destruct (find_offset_first uv (region_offsets s) 0 ltac:(lia)) as [H|(H1 & H2 & H3)];
    [left; exact H|right].
  destruct (find_offset_range uv (region_offsets s) 0 ltac:(lia)) as [H|[R _]]; [lia|].
  rewrite Z.sub_0_r in H2, H3. auto.
Qed.

(** ** Invariants of the region lists *)

Lemma remove_at_split {A} (i : Z) (l : list A) :
  0 <= i < Z.of_nat (List.length l) ->
  exists l1 a l2, l = l1 ++ a :: l2 /\ remove_at i l = l1 ++ l2 /\
                  List.length l1 = Z.to_nat i.
Proof.
  intros Hi.
  destruct (nth_error l (Z.to_nat i)) as [a|] eqn:E;
    [| apply nth_error_None in E; lia].
  destruct (nth_error_split l (Z.to_nat i) E) as (l1 & l2 & -> & L).
  exists l1, a, l2. split; [reflexivity|]. split; [|exact L].
  unfold remove_at.
  replace ((0 <=? i) && (i <? Z.of_nat (List.length (l1 ++ a :: l2)))) with true
    by (symmetry; apply andb_true_iff; split; [apply Z.leb_le | apply Z.ltb_lt]; lia).
  rewrite <- L, firstn_app, Nat.sub_diag, firstn_all, skipn_app.
  rewrite (skipn_all2 l1) by lia.
  replace (S (List.length l1) - List.length l1)%nat with 1%nat by lia.
  simpl. rewrite app_nil_r. reflexivity.
Qed.

Lemma remove_at_last {A} (l : list A) (x : A) :
  remove_at (Z.of_nat (List.length l)) (l ++ [x]) = l.
Proof.
  destruct (remove_at_split (Z.of_nat (List.length l)) (l ++ [x]))
    as (l1 & a & l2 & E & R & L); [rewrite length_app; simpl; lia|].
  rewrite R. rewrite Nat2Z.id in L.
  assert (H : firstn (List.length l) (l ++ [x]) = firstn (List.length l) (l1 ++ a :: l2))
    by (rewrite E; reflexivity).
  rewrite firstn_app, Nat.sub_diag, firstn_all, app_nil_r in H.
  rewrite <- L, firstn_app, Nat.sub_diag, firstn_all in H. simpl in H.
  rewrite app_nil_r in H. subst l1.
  apply app_inv_head in E. injection E as _ E. subst l2. apply app_nil_r.
Qed.

Lemma remove_region_lists (p : Vector3) (s : Storage) :
  (get_region_count s =? 1) = false -> has_region p s = true ->
  let i := get_region_index p s in
  let t := remove_region p s in
  0 <= i < get_region_count s /\
  region_offsets t = remove_at i (region_offsets s) /\
  height_maps t = remove_at i (height_maps s) /\
  control_maps t = remove_at i (control_maps s).
Proof.
  intros Hc Hf i t. unfold has_region in Hf. apply negb_true_iff, Z.eqb_neq in Hf.
  assert (Hr : 0 <= i < get_region_count s).
  { subst i. unfold get_region_index, get_region_count in *.
    destruct (find_offset_range (_get_offset_from p s) (region_offsets s) 0 ltac:(lia))
      as [H|[H _]]; [contradiction|lia]. }
  split; [exact Hr|].
  subst t. unfold remove_region. rewrite Hc.
  replace (get_region_index p s =? -1) with false by (symmetry; apply Z.eqb_neq; exact Hf).
  fold i.
  set (s1 := set_region_lists s _ _ _).
  destruct (update_regions_frame (clear_region_caches s1)) as (_ & E2 & E3 & E4 & _).
  destruct (clear_region_caches_frame s1) as (_ & F2 & F3 & F4 & _).
  rewrite E2, E3, E4, F2, F3, F4. subst s1. simpl. auto.
Qed.

(** Region offsets stay pairwise distinct: [add_region] and
    [remove_region] map a state with distinct offsets to one with
    distinct offsets (whatever the position). *)
Theorem region_offsets_nodup_preserved (p : Vector3) (s : Storage)
    (H : NoDup (region_offsets s)) :
  NoDup (region_offsets (add_region p s)) /\ NoDup (region_offsets (remove_region p s)).
Proof.
  split.
  - destruct (has_region p s) eqn:Hp.
    + unfold add_region. rewrite Hp. exact H.
    + destruct (add_region_fresh_lists p s Hp) as (_ & O & _). rewrite O.
      apply NoDup_app; [exact H | constructor; [intros []| constructor] |].
      intros a Ha [<-|[]].
      unfold has_region, get_region_index in Hp. apply negb_false_iff, Z.eqb_eq in Hp.
      destruct (find_offset_first (_get_offset_from p s) (region_offsets s) 0 ltac:(lia))
        as [[_ N]|(H1 & _)]; [contradiction | lia].
  - destruct (get_region_count s =? 1) eqn:Hc.
    + unfold remove_region. rewrite Hc. exact H.
    + destruct (has_region p s) eqn:Hp.
      * destruct (remove_region_lists p s Hc Hp) as (R & O & _).
        rewrite O. unfold get_region_count in R.
        destruct (remove_at_split _ _ R) as (l1 & a & l2 & E & Rm & _).
        rewrite Rm. rewrite E in H. exact (NoDup_remove_1 _ _ _ H).
      * unfold has_region in Hp. apply negb_false_iff in Hp.
        unfold remove_region. rewrite Hc, Hp. exact H.
Qed.

Lemma region_offsets_nodup_preserved_witness :
  NoDup (region_offsets three_regions) /\
  NoDup (region_offsets (add_region origin three_regions)) /\
  NoDup (region_offsets (remove_region origin three_regions)).
Proof.
  assert (H : NoDup (region_offsets three_regions)).
  { vm_compute. repeat constructor; simpl; intuition discriminate. }
  split; [exact H | exact (region_offsets_nodup_preserved origin three_regions H)].
Defined.

(** The offset, height-map and control-map lists stay in lockstep (equal
    lengths) through [add_region] and [remove_region]. *)
Theorem region_lists_lockstep_preserved (p : Vector3) (s : Storage)
    (H : lockstep s) :
  lockstep (add_region p s) /\ lockstep (remove_region p s).
Proof.
  destruct H as [Hh Hc]. split.
  - destruct (has_region p s) eqn:Hp.
    + unfold add_region. rewrite Hp. split; assumption.
    + destruct (add_region_fresh_lists p s Hp) as (_ & O & Eh & Ec & _).
      unfold lockstep. rewrite O, Eh, Ec, !length_app; simpl; lia.
  - destruct (get_region_count s =? 1) eqn:C.
    + unfold remove_region. rewrite C. split; assumption.
    + destruct (has_region p s) eqn:Hp.
      * destruct (remove_region_lists p s C Hp) as (R & O & Eh & Ec).
        unfold get_region_count in R.
        destruct (remove_at_spec _ (region_offsets s) R) as [L1 _].
        destruct (remove_at_spec (get_region_index p s) (height_maps s) ltac:(lia)) as [L2 _].
        destruct (remove_at_spec (get_region_index p s) (control_maps s) ltac:(lia)) as [L3 _].
        unfold lockstep. rewrite O, Eh, Ec, L1, L2, L3. lia.
      * unfold has_region in Hp. apply negb_false_iff in Hp.
        unfold remove_region. rewrite C, Hp. split; assumption.
Qed.

Lemma region_lists_lockstep_preserved_witness :
  lockstep three_regions /\
  lockstep (add_region origin three_regions) /\ lockstep (remove_region origin three_regions).
Proof.
  assert (H : lockstep three_regions) by (vm_compute; split; reflexivity).
  split; [exact H | exact (region_lists_lockstep_preserved origin three_regions H)].
Defined.

(** Adding a region at a free offset and removing it again at the same
    position restores the offset, height-map and control-map lists, when
    the storage held at least one region with its lists in lockstep. *)
Theorem add_then_remove_region (p : Vector3) (s : Storage)
    (Hp : has_region p s = false) (Hn : (1 <=? get_region_count s) = true)
    (Hl : lockstep s) :
  let t := remove_region p (add_region p s) in
  region_offsets t = region_offsets s /\ height_maps t = height_maps s /\
  control_maps t = control_maps s.
Proof.
  intros t; subst t. destruct Hl as [Lh Lc]. apply Z.leb_le in Hn.
  destruct (add_region_fresh_lists p s Hp) as (R & O & Eh & Ec & _).
  set (a := add_region p s) in *.
  assert (Ci : get_region_index p a = Z.of_nat (List.length (region_offsets s))).
  { unfold get_region_index. rewrite O.
    replace (_get_offset_from p a) with (_get_offset_from p s)
      by (unfold _get_offset_from; rewrite R; reflexivity).
    rewrite find_offset_app_new; [lia | lia |].
    unfold has_region in Hp. apply negb_false_iff, Z.eqb_eq in Hp. exact Hp. }
  assert (Cc : (get_region_count a =? 1) = false).
  { unfold get_region_count in *. rewrite O, length_app. simpl. apply Z.eqb_neq. lia. }
  assert (Ch : has_region p a = true).
  { unfold has_region. rewrite Ci. apply negb_true_iff, Z.eqb_neq. lia. }
  destruct (remove_region_lists p a Cc Ch) as (_ & O' & Eh' & Ec').
  rewrite O', Eh', Ec', Ci, O, Eh, Ec. split; [apply remove_at_last|].
  rewrite <- Lh, remove_at_last, Lh, <- Lc, remove_at_last. auto.
Qed.

Lemma add_then_remove_region_witness :
  has_region (pos_of_offset 3) three_regions = false /\
  (1 <=? get_region_count three_regions) = true /\ lockstep three_regions /\
  let t := remove_region (pos_of_offset 3) (add_region (pos_of_offset 3) three_regions) in
  region_offsets t = region_offsets three_regions /\
  height_maps t = height_maps three_regions /\ control_maps t = control_maps three_regions.
Proof.
  assert (Hp : has_region (pos_of_offset 3) three_regions = false) by (vm_compute; reflexivity).
  assert (Hn : (1 <=? get_region_count three_regions) = true) by (vm_compute; reflexivity).
  assert (Hl : lockstep three_regions) by (vm_compute; split; reflexivity).
  split; [exact Hp|]. split; [exact Hn|]. split; [exact Hl|].
  exact (add_then_remove_region (pos_of_offset 3) three_regions Hp Hn Hl).
Defined.

(** ** The region map cell by cell *)









(** ** Setting the map lists *)

Lemma rid_lookup_free (r q : nat) (l : list (nat * TexData)) :
  rid_lookup r (filter (fun e => negb (Nat.eqb (fst e) q)) l) =
  if Nat.eqb r q then None else rid_lookup r l.
Proof.
  induction l as [|[r' d] t IH]; simpl; [destruct (Nat.eqb r q); reflexivity|].
  destruct (Nat.eqb r' q) eqn:E; simpl.
  - apply Nat.eqb_eq in E; subst q. rewrite IH.
    destruct (Nat.eqb r r'); reflexivity.
  - destruct (Nat.eqb r r') eqn:E2; [|exact IH].
    apply Nat.eqb_eq in E2; subst r'. rewrite E. reflexivity.
Qed.







(** ** [force_update_maps] for the other map types *)

(** [force_update_maps TYPE_COLOR] clears nothing and only runs the update
    pass, so applied right after a pass (the end of [set_height_maps],
    [set_control_maps], or any [_update_regions]) it changes nothing. *)
Theorem force_update_color_after_pass (l : list Image) (s : Storage) :
  force_update_maps TYPE_COLOR (_update_regions s) = _update_regions s /\
  force_update_maps TYPE_COLOR (set_height_maps l s) = set_height_maps l s /\
  force_update_maps TYPE_COLOR (set_control_maps l s) = set_control_maps l s.
Proof.
  assert (E : forall t, force_update_maps TYPE_COLOR t = _update_regions t) by reflexivity.
  rewrite !E. split; [|split];
    [| unfold set_height_maps | unfold set_control_maps];
    apply settled_update_fixed, update_regions_settled.
Qed.



(** ** Layers *)

Lemma layer_textures_map (f : LayerMat -> option nat) (ms : list LayerMat) :
  layer_textures f (map Some ms) = Some (map f ms).
Proof. induction ms as [|m t IH]; simpl; [reflexivity | rewrite IH; reflexivity]. Qed.

Lemma all_non_null_map (ms : list LayerMat) : all_non_null (map Some ms) = true.
Proof. induction ms; simpl; auto. Qed.

Lemma conn_eqb_eq (a b : Connection) : conn_eqb a b = true <-> a = b.
Proof.
  destruct a as [[o sg] m], b as [[o' sg'] m']; simpl.
  rewrite !andb_true_iff, Nat.eqb_eq, !String.eqb_eq.
  split; [intros [[-> ->] ->]; reflexivity | intros E; injection E as -> -> ->; auto].
Qed.

Lemma is_connected_In (c : Connection) (l : list Connection) :
  is_connected c l = true <-> In c l.
Proof.
  unfold is_connected. rewrite existsb_exists. split.
  - intros (x & Hx & E). apply conn_eqb_eq in E. subst. exact Hx.
  - intros H. exists c. split; [exact H | apply conn_eqb_eq; reflexivity].
Qed.

Lemma connect_once_In (c c1 : Connection) (l : list Connection) :
  In c (if is_connected c1 l then l else l ++ [c1]) <-> In c l \/ c = c1.
Proof.
  destruct (is_connected c1 l) eqn:E.
  - apply is_connected_In in E. split; [auto | intros [H | ->]; auto].
  - rewrite in_app_iff. simpl. intuition.
Qed.

Lemma connect_layers_In (ls : list (option LayerMat)) (conns conns' : list Connection) :
  connect_layers ls conns = Some conns' ->
  forall c, In c conns' <-> In c conns \/ exists m, In (Some m) ls /\ layer_conns m c.
Proof.
  revert conns; induction ls as [|[m|] t IH]; intros conns H c; simpl in H.
  - injection H as <-. simpl. split; [auto | intros [H | (m & [] & _)]; exact H].
  - rewrite (IH _ H c), !connect_once_In. unfold layer_conns. simpl. split.
    + intros [[[H1 | H1] | H1] | (m' & H1 & H2)].
      * left; exact H1.
      * right; exists m; split; [left; reflexivity | left; exact H1].
      * right; exists m; split; [left; reflexivity | right; exact H1].
      * right; exists m'; split; [right; exact H1 | exact H2].
    + intros [H1 | (m' & [E | H1] & H2)].
      * left; left; left; exact H1.
      * injection E as ->. destruct H2 as [H2 | H2]; [left; left; right | left; right]; exact H2.
      * right; exists m'; split; [exact H1 | exact H2].
  - discriminate.
Qed.

Lemma connect_layers_null (ls : list (option LayerMat)) (conns : list Connection) :
  In None ls -> connect_layers ls conns = None.
Proof.
  revert conns; induction ls as [|[m|] t IH]; intros conns H; simpl in *;
    [contradiction | destruct H as [H|H]; [discriminate | apply IH; exact H] | reflexivity].
Qed.

Lemma existsb_has_texture_map (f : LayerMat -> option nat) (ms : list LayerMat) :
  existsb (has_texture f) (map Some ms) = existsb (fun m => is_texture (f m)) ms.
Proof. induction ms as [|m t IH]; simpl; [reflexivity | rewrite IH; reflexivity]. Qed.

Lemma existsb_is_texture_map (f : LayerMat -> option nat) (ms : list LayerMat) :
  existsb is_texture (map f ms) = existsb (fun m => is_texture (f m)) ms.
Proof. induction ms as [|m t IH]; simpl; [reflexivity | rewrite IH; reflexivity]. Qed.

(** [set_layers] with non-null layers, at least one of which has an albedo
    texture and at least one a normal texture: [get_layers] gives back the
    list passed in, but neither layered texture is built.  The array of
    [Texture2D] references handed to [Generated::create] does not convert
    to [TypedArray<Image>]: each conversion logs an error and leaves an
    empty array, so each cache is cleared again and stays Dirty with no
    handle.  The region lists and the map caches are not touched. *)
Theorem set_layers_textures_refused (ms : list LayerMat) (s : Storage)
    (Ha : existsb (fun m => is_texture (lm_albedo_texture m)) ms = true)
    (Hn : existsb (fun m => is_texture (lm_normal_texture m)) ms = true) :
  exists t, set_layers (map Some ms) s = Some t /\
  get_layers t = map Some ms /\
  generated_albedo_textures t = mkGenerated 0 None true /\
  generated_normal_textures t = mkGenerated 0 None true /\
  errors t = errors s ++ [typed_array_error; typed_array_error] /\
  region_offsets t = region_offsets s /\ height_maps t = height_maps s /\
  control_maps t = control_maps s /\
  generated_height_maps t = generated_height_maps s /\
  generated_control_maps t = generated_control_maps s /\
  generated_region_map t = generated_region_map s.
Proof.
  destruct (connect_layers_ok (map Some ms) (connections s) (all_non_null_map ms)) as [cs Hc].
  rewrite <- existsb_is_texture_map in Ha, Hn.
  unfold set_layers, gen_clear. simpl.
  unfold _update_layers. simpl. rewrite Hc.
  unfold _update_arrays. simpl. rewrite layer_textures_map.
  unfold _update_textures. simpl. rewrite !layer_textures_map.
  unfold create_texture_array. rewrite Ha, Hn. unfold gen_clear. simpl.
  eexists; split; [reflexivity|]. simpl. repeat split.
Qed.

(** [set_layers] with a non-empty list of non-null layers none of which
    has an albedo texture, or none of which has a normal texture, crashes:
    the array of null references converts, and the layered texture is
    created from null images. *)
Theorem set_layers_untextured_crashes (ms : list LayerMat) (s : Storage)
    (Hne : ms <> [])
    (Hx : existsb (fun m => is_texture (lm_albedo_texture m)) ms = false \/
          existsb (fun m => is_texture (lm_normal_texture m)) ms = false) :
  set_layers (map Some ms) s = None.
Proof.
  destruct (connect_layers_ok (map Some ms) (connections s) (all_non_null_map ms)) as [cs Hc].
  rewrite <- !existsb_is_texture_map in Hx.
  unfold set_layers, gen_clear. simpl.
  unfold _update_layers. simpl. rewrite Hc.
  unfold _update_arrays. simpl. rewrite layer_textures_map.
  unfold _update_textures. simpl. rewrite !layer_textures_map.
  unfold create_texture_array.
  destruct ms as [|m ms']; [congruence|].
  destruct Hx as [Hx | Hx].
  - rewrite Hx. reflexivity.
  - destruct (existsb is_texture (map lm_albedo_texture (m :: ms'))); unfold gen_clear;
      cbv iota beta zeta; rewrite Hx; reflexivity.
Qed.

Lemma update_textures_frame (u t : Storage) :
  _update_textures u = Some t -> layers t = layers u /\ connections t = connections u.
Proof.
  unfold _update_textures, create_texture_array, gen_clear. intros H.
  repeat (match type of H with context [match ?x with _ => _ end] => destruct x end;
          try discriminate H).
  all: injection H as <-; simpl; auto.
Qed.

Lemma update_layers_conns (u t : Storage) :
  _update_layers u = Some t ->
  layers t = layers u /\ connect_layers (layers u) (connections u) = Some (connections t).
Proof.
  intros H. unfold _update_layers, _update_arrays in H.
  destruct (connect_layers (layers u) (connections u)) as [cs|] eqn:Hc; [|discriminate H].
  cbn [layers set_layers_field] in H.
  destruct (layer_textures lm_albedo_texture (layers u)) as [a|]; [|discriminate H].
  destruct (update_textures_frame _ _ H) as [L C]. rewrite L, C. simpl. auto.
Qed.

Lemma set_layers_conns (ls : list (option LayerMat)) (s t : Storage) :
  set_layers ls s = Some t ->
  layers t = ls /\ connect_layers ls (connections s) = Some (connections t).
Proof.
  intros H. unfold set_layers, gen_clear in H. cbv iota beta zeta in H.
  destruct (update_layers_conns _ _ H) as [L C]. simpl in L, C. auto.
Qed.

(** Whenever [set_layers] returns, it has connected, for every layer, its
    [texture_changed] signal to [_update_textures] and its [value_changed]
    signal to [_update_values], kept every connection that existed, and
    made no other connection (in particular none to [_update_arrays]). *)
Theorem set_layers_connections (ls : list (option LayerMat)) (s t : Storage)
    (H : set_layers ls s = Some t) :
  forall c, In c (connections t) <->
            In c (connections s) \/ exists m, In (Some m) ls /\ layer_conns m c.
Proof.
  destruct (set_layers_conns _ _ _ H) as (_ & Hc).
  exact (connect_layers_In _ _ _ Hc).
Qed.

(** Null layers are never accepted: [set_layers] with a null entry
    crashes, [set_layer] with a null material crashes unless the index is
    that of an existing layer (it is then a removal), and [set_layer] at a
    negative index crashes. *)
Theorem null_layer_crashes (ls : list (option LayerMat)) (m : LayerMat) (i : Z) (s : Storage) :
  (In None ls -> set_layers ls s = None) /\
  (~ (0 <= i < get_layer_count s) -> set_layer None i s = None) /\
  (i < 0 -> set_layer (Some m) i s = None).
Proof.
  split; [|split].
  - intros H. unfold set_layers, gen_clear. simpl. unfold _update_layers. simpl.
    rewrite connect_layers_null by exact H. reflexivity.
  - intros H. unfold get_layer_count in H. unfold set_layer.
    destruct (i <? Z.of_nat (List.length (layers s))) eqn:E.
    + apply Z.ltb_lt in E. unfold array_get.
      replace (0 <=? i) with false by (symmetry; apply Z.leb_gt; lia). reflexivity.
    + unfold gen_clear. simpl. unfold _update_layers. simpl.
      rewrite connect_layers_null; [reflexivity|].
      apply in_or_app. right. left. reflexivity.
  - intros H. unfold set_layer.
    destruct (i <? Z.of_nat (List.length (layers s))) eqn:E.
    + replace (0 <=? i) with false by (symmetry; apply Z.leb_gt; lia). reflexivity.
    + apply Z.ltb_ge in E. lia.
Qed.

Lemma all_non_null_remove_at (i : Z) (l : list (option LayerMat)) :
  all_non_null l = true -> all_non_null (remove_at i l) = true.
Proof.
  intros H. destruct (Z_le_gt_dec 0 i) as [G1|G1];
    [destruct (Z_lt_ge_dec i (Z.of_nat (List.length l))) as [G2|G2]|].
  - destruct (remove_at_split i l ltac:(lia)) as (l1 & a & l2 & E & R & _).
    rewrite R. subst l. unfold all_non_null in *. rewrite forallb_app in *. simpl in H.
    apply andb_true_iff in H as [H1 H2]. apply andb_true_iff in H2 as [_ H2].
    rewrite H1, H2. reflexivity.
  - unfold remove_at. replace (i <? Z.of_nat (List.length l)) with false
      by (symmetry; apply Z.ltb_ge; lia). rewrite andb_false_r. exact H.
  - unfold remove_at. replace (0 <=? i) with false by (symmetry; apply Z.leb_gt; lia). exact H.
Qed.

(** Removing a layer with [set_layer] and a null material disconnects the
    layer's [texture_changed] signal from [_update_textures] and then tries
    to disconnect its [value_changed] signal from [_update_arrays], a
    connection that [_update_layers] never makes (it connects
    [value_changed] to [_update_values]).  So the second disconnect logs
    that the connection does not exist (the first one does too when the
    [texture_changed] connection was missing as well), and the layer's
    [value_changed] to [_update_values] connection is left in place.  The
    layer is removed from the list.  When the remaining layers still have
    an albedo and a normal texture, the texture rebuild that follows logs
    the two refused texture-array conversions. *)
Theorem set_layer_remove_leaves_connection (i : Z) (rm : LayerMat) (s : Storage)
    (Hi : get_layer i s = Some (Some rm))
    (Hn : all_non_null (layers s) = true)
    (Hv : ~ In (lm_id rm, "value_changed"%string, "_update_arrays"%string) (connections s))
    (HA : existsb (has_texture lm_albedo_texture) (remove_at i (layers s)) = true)
    (HN : existsb (has_texture lm_normal_texture) (remove_at i (layers s)) = true) :
  exists t, set_layer None i s = Some t /\
    layers t = remove_at i (layers s) /\
    errors t = errors s ++
      (if is_connected (lm_id rm, "texture_changed"%string, "_update_textures"%string) (connections s)
       then [] else [disconnect_error]) ++
      [disconnect_error] ++ [typed_array_error; typed_array_error] /\
    (In (lm_id rm, "value_changed"%string, "_update_values"%string) (connections s) ->
     In (lm_id rm, "value_changed"%string, "_update_values"%string) (connections t)).
Proof.
  unfold get_layer, array_get in Hi.
  destruct (0 <=? i) eqn:Hi0; [|discriminate Hi].
  assert (Hlt : i < Z.of_nat (List.length (layers s))).
  { apply Z.leb_le in Hi0. assert (Hs : (Z.to_nat i < List.length (layers s))%nat)
      by (apply nth_error_Some; rewrite Hi; discriminate). lia. }
  unfold set_layer. rewrite (proj2 (Z.ltb_lt _ _) Hlt). unfold array_get. rewrite Hi0, Hi.
  set (c1 := (lm_id rm, "texture_changed"%string, "_update_textures"%string)).
  set (c2 := (lm_id rm, "value_changed"%string, "_update_arrays"%string)).
  set (c3 := (lm_id rm, "value_changed"%string, "_update_values"%string)).
  set (s' := disconnect c1 s).
  assert (S' : layers s' = layers s /\
               errors s' = errors s ++ (if is_connected c1 (connections s) then []
                                        else [disconnect_error]) /\
               ~ In c2 (connections s') /\ (In c3 (connections s) -> In c3 (connections s'))).
  { subst s'. unfold disconnect. destruct (is_connected c1 (connections s)).
    - cbn [layers errors connections set_layers_field]. rewrite app_nil_r.
      split; [reflexivity|]. split; [reflexivity|]. split.
      + intros H. apply filter_In in H as [H _]. exact (Hv H).
      + intros H. apply filter_In. split; [exact H|].
        apply negb_true_iff, not_true_iff_false. intros E. apply conn_eqb_eq in E. discriminate E.
    - simpl. auto. }
  destruct S' as (L' & E' & N' & C').
  assert (D2 : disconnect c2 s' = log_error s' disconnect_error).
  { unfold disconnect.
    replace (is_connected c2 (connections s')) with false
      by (symmetry; apply not_true_iff_false; intros H; apply is_connected_In in H; exact (N' H)).
    reflexivity. }
  rewrite D2.
  set (s1 := set_layers_field _ _ _).
  assert (Hn1 : all_non_null (layers s1) = true)
    by (subst s1; simpl; rewrite L'; apply all_non_null_remove_at; exact Hn).
  unfold gen_clear. cbv iota beta zeta.
  set (u := set_texture_caches s1 _ _ _).
  assert (Hu : all_non_null (layers u) = true) by exact Hn1.
  assert (HA' : existsb (has_texture lm_albedo_texture) (layers u) = true)
    by (subst u s1; simpl; rewrite L'; exact HA).
  assert (HN' : existsb (has_texture lm_normal_texture) (layers u) = true)
    by (subst u s1; simpl; rewrite L'; exact HN).
  destruct (update_layers_ok u Hu HA' HN') as (t & E & Lt & _ & Ct & _ & _ & Et).
  exists t. split; [exact E|].
  split; [rewrite Lt; subst u s1; simpl; rewrite L'; reflexivity|].
  split; [rewrite Et; subst u s1; simpl; rewrite E', <- !app_assoc; reflexivity|].
  intros H3. apply (proj2 (connect_layers_In _ _ _ Ct c3)). left.
  subst u s1. simpl. exact (C' H3).
Qed.

Lemma list_set_spec {A} (n : nat) (v : A) (l : list A) :
  (n < List.length l)%nat ->
  List.length (list_set n v l) = List.length l /\
  forall j, nth_error (list_set n v l) j = if Nat.eqb j n then Some v else nth_error l j.
Proof.
  intros Hn. unfold list_set. split.
  - rewrite length_app, length_firstn. cbn [List.length]. rewrite length_skipn. lia.
  - intros j. destruct (Nat.lt_total j n) as [Hj | [-> | Hj]].
    + rewrite nth_error_app1 by (rewrite length_firstn; lia).
      rewrite nth_error_firstn. replace (Nat.eqb j n) with false by (symmetry; apply Nat.eqb_neq; lia).
      apply Nat.ltb_lt in Hj. rewrite Hj. reflexivity.
    + rewrite nth_error_app2 by (rewrite length_firstn; lia).
      rewrite length_firstn, Nat.eqb_refl. replace (n - Nat.min n (List.length l))%nat with 0%nat by lia.
      reflexivity.
    + rewrite nth_error_app2 by (rewrite length_firstn; lia).
      rewrite length_firstn. replace (Nat.eqb j n) with false by (symmetry; apply Nat.eqb_neq; lia).
      replace (j - Nat.min n (List.length l))%nat with (S (j - S n)) by lia. cbn [nth_error].
      rewrite nth_error_skipn. f_equal. lia.
Qed.

Lemma all_non_null_list_set (n : nat) (m : LayerMat) (l : list (option LayerMat)) :
  all_non_null l = true -> all_non_null (list_set n (Some m) l) = true.
Proof.
  intros H. unfold all_non_null, list_set in *. rewrite forallb_app. simpl.
  rewrite <- (firstn_skipn n l) in H. rewrite forallb_app in H. apply andb_true_iff in H as [H1 H2].
  rewrite H1. simpl. rewrite <- (firstn_skipn 1 (skipn n l)) in H2. rewrite forallb_app in H2.
  apply andb_true_iff in H2 as [_ H2]. rewrite skipn_skipn in H2.
  replace (S n) with (1 + n)%nat by lia. exact H2.
Qed.

(** [set_layer] with a non-null material at the index of an existing layer
    replaces that layer in place: the number of layers is unchanged,
    [get_layer] at that index returns the new material, and every other
    index returns what it returned before.  When the new material has an
    albedo and a normal texture, the texture rebuild that follows logs the
    two refused texture-array conversions and nothing
    else. *)
Theorem set_layer_replaces_in_place (m : LayerMat) (i : Z) (s : Storage)
    (Hn : all_non_null (layers s) = true)
    (Hi : 0 <= i < get_layer_count s)
    (Hm : is_texture (lm_albedo_texture m) && is_texture (lm_normal_texture m) = true) :
  exists t, set_layer (Some m) i s = Some t /\
    get_layer_count t = get_layer_count s /\
    get_layer i t = Some (Some m) /\
    (forall j, j <> i -> get_layer j t = get_layer j s) /\
    errors t = errors s ++ [typed_array_error; typed_array_error].
Proof.
  unfold get_layer_count in Hi.
  assert (Hlt : (Z.to_nat i < List.length (layers s))%nat) by lia.
  destruct (list_set_spec (Z.to_nat i) (Some m) (layers s) Hlt) as [L N].
  assert (Hin : In (Some m) (list_set (Z.to_nat i) (Some m) (layers s))).
  { apply (nth_error_In _ (Z.to_nat i)). rewrite N, Nat.eqb_refl. reflexivity. }
  apply andb_true_iff in Hm as [Hma Hmn].
  unfold set_layer. rewrite (proj2 (Z.ltb_lt _ _) (proj2 Hi)), (proj2 (Z.leb_le _ _) (proj1 Hi)).
  unfold gen_clear. cbv iota beta zeta.
  set (u := set_texture_caches _ _ _ _).
  assert (Hu : all_non_null (layers u) = true) by (apply all_non_null_list_set; exact Hn).
  assert (HA : existsb (has_texture lm_albedo_texture) (layers u) = true)
    by (apply existsb_exists; exists (Some m); split; [exact Hin | exact Hma]).
  assert (HN : existsb (has_texture lm_normal_texture) (layers u) = true)
    by (apply existsb_exists; exists (Some m); split; [exact Hin | exact Hmn]).
  destruct (update_layers_ok u Hu HA HN) as (t & E & Lt & _ & _ & _ & _ & Et).
  exists t. split; [exact E|].
  unfold get_layer_count, get_layer, array_get. rewrite Lt. subst u. simpl.
  split; [rewrite L; reflexivity|].
  split; [rewrite (proj2 (Z.leb_le _ _) (proj1 Hi)), N, Nat.eqb_refl; reflexivity|].
  split; [|rewrite Et; reflexivity].
  intros j Hj. destruct (0 <=? j) eqn:J; [|reflexivity].
  apply Z.leb_le in J. rewrite N. replace (Nat.eqb (Z.to_nat j) (Z.to_nat i)) with false
    by (symmetry; apply Nat.eqb_neq; lia). reflexivity.
Qed.

Lemma set_layer_remove_leaves_connection_witness :
  get_layer 0 two_layers = Some (Some (sample_layer 0)) /\
  all_non_null (layers two_layers) = true /\
  ~ In (lm_id (sample_layer 0), "value_changed"%string, "_update_arrays"%string)
       (connections two_layers) /\
  existsb (has_texture lm_albedo_texture) (remove_at 0 (layers two_layers)) = true /\
  existsb (has_texture lm_normal_texture) (remove_at 0 (layers two_layers)) = true /\
  exists t, set_layer None 0 two_layers = Some t /\
    layers t = remove_at 0 (layers two_layers) /\
    errors t = errors two_layers ++
      (if is_connected (lm_id (sample_layer 0), "texture_changed"%string, "_update_textures"%string)
            (connections two_layers)
       then [] else [disconnect_error]) ++
      [disconnect_error] ++ [typed_array_error; typed_array_error] /\
    (In (lm_id (sample_layer 0), "value_changed"%string, "_update_values"%string) (connections two_layers) ->
     In (lm_id (sample_layer 0), "value_changed"%string, "_update_values"%string) (connections t)).
Proof.
  assert (H1 : get_layer 0 two_layers = Some (Some (sample_layer 0))) by (vm_compute; reflexivity).
  assert (H2 : all_non_null (layers two_layers) = true) by (vm_compute; reflexivity).
  assert (H3 : ~ In (lm_id (sample_layer 0), "value_changed"%string, "_update_arrays"%string)
                    (connections two_layers))
    by (intros H; apply is_connected_In in H; vm_compute in H; discriminate H).
  assert (H4 : existsb (has_texture lm_albedo_texture) (remove_at 0 (layers two_layers)) = true)
    by (vm_compute; reflexivity).
  assert (H5 : existsb (has_texture lm_normal_texture) (remove_at 0 (layers two_layers)) = true)
    by (vm_compute; reflexivity).
  split; [exact H1|]. split; [exact H2|]. split; [exact H3|]. split; [exact H4|]. split; [exact H5|].
  exact (set_layer_remove_leaves_connection 0 (sample_layer 0) two_layers H1 H2 H3 H4 H5).
Defined.

Lemma set_layer_replaces_in_place_witness :
  all_non_null (layers two_layers) = true /\ 0 <= 1 < get_layer_count two_layers /\
  is_texture (lm_albedo_texture (sample_layer 5)) && is_texture (lm_normal_texture (sample_layer 5)) = true /\
  exists t, set_layer (Some (sample_layer 5)) 1 two_layers = Some t /\
    get_layer_count t = get_layer_count two_layers /\
    get_layer 1 t = Some (Some (sample_layer 5)) /\
    (forall j, j <> 1 -> get_layer j t = get_layer j two_layers) /\
    errors t = errors two_layers ++ [typed_array_error; typed_array_error].
Proof.
  assert (H1 : all_non_null (layers two_layers) = true) by (vm_compute; reflexivity).
  assert (H2 : 0 <= 1 < get_layer_count two_layers) by (split; [lia | vm_compute; reflexivity]).
  assert (H3 : is_texture (lm_albedo_texture (sample_layer 5)) &&
               is_texture (lm_normal_texture (sample_layer 5)) = true) by reflexivity.
  split; [exact H1|]. split; [exact H2|]. split; [exact H3|].
  exact (set_layer_replaces_in_place (sample_layer 5) 1 two_layers H1 H2 H3).
Defined.

Lemma set_layers_textures_refused_witness :
  let ms := [sample_layer 0; sample_layer 1] in
  existsb (fun m => is_texture (lm_albedo_texture m)) ms = true /\
  existsb (fun m => is_texture (lm_normal_texture m)) ms = true /\
  exists t, set_layers (map Some ms) one_region = Some t /\
  get_layers t = map Some ms /\
  generated_albedo_textures t = mkGenerated 0 None true /\
  generated_normal_textures t = mkGenerated 0 None true /\
  errors t = errors one_region ++ [typed_array_error; typed_array_error] /\
  region_offsets t = region_offsets one_region /\ height_maps t = height_maps one_region /\
  control_maps t = control_maps one_region /\
  generated_height_maps t = generated_height_maps one_region /\
  generated_control_maps t = generated_control_maps one_region /\
  generated_region_map t = generated_region_map one_region.
Proof.
  intros ms.
  assert (H1 : existsb (fun m => is_texture (lm_albedo_texture m)) ms = true) by reflexivity.
  assert (H2 : existsb (fun m => is_texture (lm_normal_texture m)) ms = true) by reflexivity.
  split; [exact H1|]. split; [exact H2|].
  exact (set_layers_textures_refused ms one_region H1 H2).
Defined.

Lemma set_layers_untextured_crashes_witness :
  let ms := [mkLayerMat 7 (Some 1007%nat) None] in
  ms <> [] /\
  (existsb (fun m => is_texture (lm_albedo_texture m)) ms = false \/
   existsb (fun m => is_texture (lm_normal_texture m)) ms = false) /\
  set_layers (map Some ms) one_region = None.
Proof.
  intros ms.
  assert (H1 : ms <> []) by discriminate.
  assert (H2 : existsb (fun m => is_texture (lm_albedo_texture m)) ms = false \/
               existsb (fun m => is_texture (lm_normal_texture m)) ms = false)
    by (right; reflexivity).
  split; [exact H1|]. split; [exact H2|].
  exact (set_layers_untextured_crashes ms one_region H1 H2).
Defined.

Lemma set_layers_connections_witness :
  let ls := [Some (sample_layer 0); Some (sample_layer 1)] in
  exists t, set_layers ls one_region = Some t /\
  forall c, In c (connections t) <->
            In c (connections one_region) \/ exists m, In (Some m) ls /\ layer_conns m c.
Proof.
  intros ls. eexists. split.
  - vm_compute. reflexivity.
  - apply set_layers_connections. vm_compute. reflexivity.
Defined.

(** ** Teardown, material parameters and material handles *)

Lemma rid_lookup_free_if (r q : nat) (srv : Server) :
  rid_lookup r (rs_textures (if Nat.ltb 0 q then rs_free_rid q srv else srv)) =
  if Nat.ltb 0 q && Nat.eqb r q then None else rid_lookup r (rs_textures srv).
Proof.
  destruct (Nat.ltb 0 q); simpl; [apply rid_lookup_free | reflexivity].
Qed.

(** [_clear] resets the five generated caches to an empty, dirty record
    with no RID, and frees on the server each generated texture that held
    a valid RID; every other texture the server holds, apart from any
    stored under the material's or the shader's RID, is kept. *)
Theorem clear_frees_generated (s : Storage) :
  let t := _clear s in
  generated_height_maps t = mkGenerated 0 None true /\
  generated_control_maps t = mkGenerated 0 None true /\
  generated_albedo_textures t = mkGenerated 0 None true /\
  generated_normal_textures t = mkGenerated 0 None true /\
  generated_region_map t = mkGenerated 0 None true /\
  forall r, r <> material s -> r <> shader s ->
            rid_lookup r (rs_textures (server t)) =
            if existsb (Nat.eqb r) (clear_freed s) then None
            else rid_lookup r (rs_textures (server s)).
Proof.
  unfold _clear. cbv zeta. unfold gen_clear. cbv iota beta.
  repeat split. intros r Hm Hs. simpl.
  rewrite !rid_lookup_free_if. unfold rs_free_rid at 1 2. simpl.
  rewrite !rid_lookup_free.
  rewrite (proj2 (Nat.eqb_neq r (material s)) Hm), (proj2 (Nat.eqb_neq r (shader s)) Hs).
  unfold clear_freed. cbn [filter existsb].
  destruct (Nat.ltb 0 (g_rid (generated_height_maps s))),
           (Nat.ltb 0 (g_rid (generated_control_maps s))),
           (Nat.ltb 0 (g_rid (generated_albedo_textures s))),
           (Nat.ltb 0 (g_rid (generated_normal_textures s))),
           (Nat.ltb 0 (g_rid (generated_region_map s))); cbn [existsb andb orb];
  repeat match goal with
         | |- context [Nat.eqb r ?x] => destruct (Nat.eqb r x)
         end; reflexivity.
Qed.

(** [set_region_size] with an accepted size writes [region_size] and
    [region_pixel_size = 1 / size] into the material and leaves the other
    material parameters alone; a rejected size leaves the server and the
    size untouched. [set_max_height] stores the height and writes
    [terrain_height] only. *)
Theorem material_param_setters (p : Z) (k : string) (s : Storage) :
  ((64 <=? p) && (p <=? 2048) = true ->
     let t := set_region_size p s in
     get_region_size t = p /\
     param_get "region_size" (rs_params (server t)) = Some (PInt p) /\
     param_get "region_pixel_size" (rs_params (server t)) = Some (PFloat (1 / inject_Z p)) /\
     (String.eqb k "region_size" = false -> String.eqb k "region_pixel_size" = false ->
        param_get k (rs_params (server t)) = param_get k (rs_params (server s)))) /\
  ((64 <=? p) && (p <=? 2048) = false ->
     server (set_region_size p s) = server s /\ get_region_size (set_region_size p s) = get_region_size s) /\
  (let t := set_max_height p s in
   get_max_height t = p /\
   param_get "terrain_height" (rs_params (server t)) = Some (PInt p) /\
   (String.eqb k "terrain_height" = false ->
      param_get k (rs_params (server t)) = param_get k (rs_params (server s)))).
Proof.
  split; [|split].
  - intros H. apply andb_true_iff in H as [H1 H2]. apply Z.leb_le in H1, H2.
    unfold set_region_size.
    rewrite (proj2 (Z.ltb_ge p 64)) by lia.
    replace (p >? 2048) with false by (symmetry; rewrite Z.gtb_ltb; apply Z.ltb_ge; lia).
    unfold get_region_size, rs_material_set_param. simpl.
    split; [reflexivity|].
    split; [rewrite param_get_set_other by reflexivity; apply param_get_set_same|].
    split; [apply param_get_set_same|].
    intros K1 K2. rewrite !param_get_set_other by assumption. reflexivity.
  - intros H. apply andb_false_iff in H. unfold set_region_size, get_region_size.
    destruct (p <? 64) eqn:E1; [simpl; auto|].
    destruct (p >? 2048) eqn:E2; [simpl; auto|].
    exfalso. apply Z.ltb_ge in E1. rewrite Z.gtb_ltb in E2. apply Z.ltb_ge in E2.
    destruct H as [H|H]; apply Z.leb_gt in H; lia.
  - unfold set_max_height, get_max_height, rs_material_set_param. simpl.
    split; [reflexivity|]. split; [apply param_get_set_same|].
    intros K. apply param_get_set_other. exact K.
Qed.

Lemma update_material_fields (s : Storage) :
  let t := _update_material s in
  material t = (if Nat.ltb 0 (material s) then material s else rs_next (server s)) /\
  shader t = (if Nat.ltb 0 (shader s) then shader s
              else if Nat.ltb 0 (material s) then rs_next (server s)
              else S (rs_next (server s))) /\
  region_size t = region_size s /\
  (rs_next (server s) <= rs_next (server t))%nat.
Proof.
  assert (GS : forall u, material (set_region_size (region_size u) u) = material u /\
                         shader (set_region_size (region_size u) u) = shader u /\
                         region_size (set_region_size (region_size u) u) = region_size u /\
                         rs_next (server (set_region_size (region_size u) u)) = rs_next (server u)).
  { intros u. unfold set_region_size.
    destruct (region_size u <? 64), (region_size u >? 2048); simpl; auto. }
  cbv zeta. unfold _update_material.
  destruct (Nat.ltb 0 (material s)), (Nat.ltb 0 (shader s)); unfold rs_alloc; cbv iota beta zeta;
  match goal with |- context [set_region_size (region_size ?u) ?u] =>
    destruct (GS u) as (G1 & G2 & G3 & G4); rewrite G1, G2, G3, G4
  end; simpl; repeat split; auto; lia.
Qed.

(** [_update_material] keeps a valid material and shader and otherwise
    allocates them (from the server's next RID); two handles it allocates
    are distinct, and a second call allocates nothing. *)
Theorem update_material_handles (s : Storage)
    (Hn : (0 < rs_next (server s))%nat) :
  let t := _update_material s in
  (0 < material t)%nat /\ (0 < shader t)%nat /\
  ((0 < material s)%nat -> material t = material s) /\
  ((0 < shader s)%nat -> shader t = shader s) /\
  (material s = 0%nat -> shader s = 0%nat -> material t <> shader t) /\
  material (_update_material t) = material t /\ shader (_update_material t) = shader t /\
  region_size t = region_size s.
Proof.
  cbv zeta.
  destruct (update_material_fields s) as (M & S & R & N).
  destruct (update_material_fields (_update_material s)) as (M' & S' & _ & _).
  assert (Pm : (0 < material (_update_material s))%nat)
    by (rewrite M; destruct (Nat.ltb 0 (material s)) eqn:E; [apply Nat.ltb_lt in E|]; lia).
  assert (Ps : (0 < shader (_update_material s))%nat)
    by (rewrite S; destruct (Nat.ltb 0 (shader s)) eqn:E; [apply Nat.ltb_lt in E|];
        [|destruct (Nat.ltb 0 (material s))]; lia).
  rewrite M', S', (proj2 (Nat.ltb_lt _ _) Pm), (proj2 (Nat.ltb_lt _ _) Ps).
  split; [exact Pm|]. split; [exact Ps|].
  split; [intros H; rewrite M, (proj2 (Nat.ltb_lt _ _) H); reflexivity|].
  split; [intros H; rewrite S, (proj2 (Nat.ltb_lt _ _) H); reflexivity|].
  split; [|auto].
  intros H1 H2. rewrite M, S, H1, H2. simpl. lia.
Qed.

Lemma array_get_app_new {A} (l : list A) (x : A) (j : Z) :
  array_get (l ++ [x]) j = if j =? Z.of_nat (List.length l) then Some x else array_get l j.
Proof.
  unfold array_get. destruct (0 <=? j) eqn:E.
  - apply Z.leb_le in E. destruct (Z.eqb_spec j (Z.of_nat (List.length l))).
    + subst j. rewrite Nat2Z.id, nth_error_app2, Nat.sub_diag by lia. reflexivity.
    + destruct (Nat.lt_ge_cases (Z.to_nat j) (List.length l)).
      * rewrite nth_error_app1 by lia. reflexivity.
      * rewrite nth_error_app2 by lia. rewrite (proj2 (nth_error_None l (Z.to_nat j))) by lia.
        destruct (Z.to_nat j - List.length l)%nat eqn:E2; [lia|].
        destruct n0; reflexivity.
  - apply Z.leb_gt in E. destruct (Z.eqb_spec j (Z.of_nat (List.length l))); [lia|reflexivity].
Qed.

(** [add_region] at a fresh position gives the new region, at index
    [get_region_count] of the old storage, a black height map and a black
    control map of the region size; every other index, for either map type,
    reads as it did before (the lists being in lockstep). *)
Theorem add_region_get_map (p : Vector3) (s : Storage)
    (Hp : has_region p s = false) (Hl : lockstep s) :
  let t := add_region p s in
  let rs := region_size s in
  let n := get_region_count s in
  get_map n TYPE_HEIGHT t = Some (Some (image_fill (mkColor 0 0 0 1) (image_create rs rs FORMAT_RH))) /\
  get_map n TYPE_CONTROL t = Some (Some (image_fill (mkColor 0 0 0 1) (image_create rs rs FORMAT_RGBA8))) /\
  (forall j ty, j <> n -> get_map j ty t = get_map j ty s).
Proof.
  cbv zeta. destruct Hl as [Lh Lc].
  destruct (add_region_fresh_lists p s Hp) as (_ & _ & Eh & Ec & _).
  unfold get_map, get_region_count. rewrite Eh, Ec, !array_get_app_new, Lh, Lc, Z.eqb_refl.
  split; [reflexivity|]. split; [reflexivity|].
  intros j ty Hj. apply Z.eqb_neq in Hj.
  destruct ty; rewrite ?Eh, ?Ec, ?array_get_app_new, ?Lh, ?Lc, ?Hj; reflexivity.
Qed.

Lemma add_region_get_map_witness :
  has_region (pos_of_offset 3) three_regions = false /\ lockstep three_regions /\
  let t := add_region (pos_of_offset 3) three_regions in
  let rs := region_size three_regions in
  let n := get_region_count three_regions in
  get_map n TYPE_HEIGHT t = Some (Some (image_fill (mkColor 0 0 0 1) (image_create rs rs FORMAT_RH))) /\
  get_map n TYPE_CONTROL t = Some (Some (image_fill (mkColor 0 0 0 1) (image_create rs rs FORMAT_RGBA8))) /\
  (forall j ty, j <> n -> get_map j ty t = get_map j ty three_regions).
Proof.
  assert (Hp : has_region (pos_of_offset 3) three_regions = false) by (vm_compute; reflexivity).
  assert (Hl : lockstep three_regions) by (vm_compute; split; reflexivity).
  split; [exact Hp|]. split; [exact Hl|].
  exact (add_region_get_map (pos_of_offset 3) three_regions Hp Hl).
Defined.

Lemma update_material_handles_witness :
  (0 < rs_next (server storage_default))%nat /\
  let t := _update_material storage_default in
  (0 < material t)%nat /\ (0 < shader t)%nat /\
  ((0 < material storage_default)%nat -> material t = material storage_default) /\
  ((0 < shader storage_default)%nat -> shader t = shader storage_default) /\
  (material storage_default = 0%nat -> shader storage_default = 0%nat -> material t <> shader t) /\
  material (_update_material t) = material t /\ shader (_update_material t) = shader t /\
  region_size t = region_size storage_default.
Proof.
  assert (Hn : (0 < rs_next (server storage_default))%nat) by (vm_compute; lia).
  split; [exact Hn|]. exact (update_material_handles storage_default Hn).
Defined.
